(** * Case-Manager: the calendar scheduling engine

    A shallow embedding of the scheduling code of the Case-Manager
    application and the properties its specification states about it:

    - the slot generators of the appointment scheduler, of the event
      dialog and of the fallback picker ([generateTimeSlots], three
      copies in the source);
    - the validators of the two dialogs ([validateInputs], [validateForm]);
    - the manual date formatting done on submission ([handleSchedule],
      [handleAddEvent]), the event the event dialog saves, and the way
      both dialogs read a calendar selection back
      ([handleCustomCalendarSelect], the effect on [initialDate]);
    - the calendar screen: the agenda of the selected day
      ([updateSelectedDateEvents]), the month markers
      ([updateMarkedDates]) as the two snapshot callbacks compute
      them, and the deletion of an event ([handleDeleteEvent]).

    The ambient clock ([new Date()]) is an explicit argument [now]; the
    component state read by a closure ([events], [appointments],
    [selected]) is an explicit argument as well, and the state the
    snapshot callbacks captured when they were registered is a record
    of its own. *)

From Stdlib Require Import List Arith Lia Bool Sorting.Sorted.
From Stdlib Require Import ZArith Permutation.
From Stdlib Require Import Strings.String Strings.Ascii.
From Stdlib Require Import Decimal DecimalNat DecimalString.
From stdpp Require Import base list sorting strings gmap.

Open Scope nat_scope.

(** ** JavaScript dates, read through their local-time getters *)

Module JSDate.

(** A valid [Date], as its local-time getters show it.  [getMonth] is
    0-indexed, as in JavaScript. *)
Record t : Type := mk {
  getFullYear : nat;
  getMonth : nat;
  getDate : nat;
  getHours : nat;
  getMinutes : nat;
  getSeconds : nat;
  getMilliseconds : nat
}.

(** [d.setHours(h, m, s, ms)] for in-range arguments: the calendar day
    is kept, the time of day is replaced. *)
Definition setHours (d : t) (h m s ms : nat) : t :=
  mk (getFullYear d) (getMonth d) (getDate d) h m s ms.

(** [d.setHours(h)] followed by [d.setMinutes(m)]: seconds and
    milliseconds are kept. *)
Definition setHoursMinutes (d : t) (h m : nat) : t :=
  mk (getFullYear d) (getMonth d) (getDate d) h m
     (getSeconds d) (getMilliseconds d).

(** The calendar day of a date, as a triple ordered lexicographically. *)
Definition day (d : t) : nat * nat * nat :=
  (getFullYear d, getMonth d, getDate d).

(** Milliseconds since local midnight. *)
Definition msOfDay (d : t) : N :=
  ((N.of_nat (getHours d) * 60 + N.of_nat (getMinutes d)) * 60
   + N.of_nat (getSeconds d)) * 1000
  + N.of_nat (getMilliseconds d).

(** Minutes since local midnight. *)
Definition minuteOfDay (d : t) : nat := getHours d * 60 + getMinutes d.

Definition sameDay (a b : t) : bool :=
  (getFullYear a =? getFullYear b) && (getMonth a =? getMonth b)
  && (getDate a =? getDate b).

(** Strict order of calendar days. *)
Definition dayBefore (a b : t) : bool :=
  (getFullYear a <? getFullYear b)
  || ((getFullYear a =? getFullYear b)
      && ((getMonth a <? getMonth b)
          || ((getMonth a =? getMonth b) && (getDate a <? getDate b)))).

(** date-fns [isBefore(a, b)]: [a] is an earlier instant than [b]. *)
Definition isBefore (a b : t) : bool :=
  dayBefore a b || (sameDay a b && (msOfDay a <? msOfDay b)%N).

(** date-fns [startOfDay(d)]. *)
Definition startOfDay (d : t) : t := setHours d 0 0 0 0.

(** A time zone, as far as [setHours] shows it: [zone d hours minutes]
    is the local time of day that [d] shows after
    [d.setHours(hours, minutes, 0, 0)].  It is [(hours, minutes)]
    wherever that local time exists on the day of [d]; a local time
    that a change of the clocks skips is moved past the gap (where the
    clocks go from 02:00 to 03:00, 02:30 becomes 03:30).  The gap is
    taken not to reach midnight, so the day of [d] is kept. *)
Definition Zone : Type := t -> nat -> nat -> nat * nat.

Definition setHoursIn (zone : Zone) (d : t) (hours minutes : nat) : t :=
  let (h, m) := zone d hours minutes in setHours d h m 0 0.

(** A zone whose clocks never change. *)
Definition fixedZone : Zone := fun _ hours minutes => (hours, minutes).

(** The Gregorian calendar of the engine. *)
Definition isLeapYear (year : nat) : bool :=
  ((year mod 4 =? 0) && negb (year mod 100 =? 0)) || (year mod 400 =? 0).

Definition daysInMonth (year monthIndex : nat) : nat :=
  match monthIndex with
  | 1 => if isLeapYear year then 29 else 28
  | 3 | 5 | 8 | 10 => 30
  | _ => 31
  end.

(** [new Date(year, monthIndex, day, hours, minutes, seconds, ms)] on
    arguments that name a date and a time as they are.  Arguments the
    constructor would carry over into another month or day, and years
    below 100, which it moves into the twentieth century, are not
    modelled: [None]. *)
Definition fromParts (year monthIndex day hours minutes seconds ms : nat)
    : option t :=
  if (100 <=? year) && (monthIndex <=? 11)
     && (1 <=? day) && (day <=? daysInMonth year monthIndex)
     && (hours <? 24) && (minutes <? 60) && (seconds <? 60) && (ms <? 1000)
  then Some (mk year monthIndex day hours minutes seconds ms)
  else None.

End JSDate.

Abbreviation Date := JSDate.t.

(** date-fns [isToday(d)], with the clock made explicit. *)
Definition isToday (now d : Date) : bool := JSDate.sameDay d now.

(** A form field holding a [Date]: [null], an [Invalid Date], or a valid
    date. *)
Inductive DateField : Type :=
| NoDate
| InvalidDate
| ValidDate (d : Date).

(** ** JavaScript strings *)

Module JSString.

(** [Number.prototype.toString()] of a non-negative integer. *)
Definition toString (n : nat) : string :=
  NilZero.string_of_uint (Nat.to_uint n).

Fixpoint repeatChar (n : nat) (c : ascii) : string :=
  match n with
  | 0 => EmptyString
  | S n' => String c (repeatChar n' c)
  end.

(** [s.padStart(targetLength, c)] for a one-character pad string. *)
Definition padStart (targetLength : nat) (c : ascii) (s : string) : string :=
  repeatChar (targetLength - String.length s) c ++ s.

(** The white space [trim] removes, within ASCII. *)
Definition isWhiteSpace (c : ascii) : bool :=
  let n := nat_of_ascii c in
  ((9 <=? n) && (n <=? 13)) || (n =? 32).

(** [!s.trim()]: the string is empty once trimmed. *)
Definition isBlank (s : string) : bool :=
  forallb isWhiteSpace (list_ascii_of_string s).

(** The regular expression class [\d]. *)
Definition isDigit (c : ascii) : bool :=
  let n := nat_of_ascii c in (48 <=? n) && (n <=? 57).

Definition digitValue (c : ascii) : nat := nat_of_ascii c - 48.

(** The character of a decimal digit. *)
Definition digitChar (n : nat) : ascii := ascii_of_nat (48 + n).

(** [a.localeCompare(b)], as [-1], [0] or [1].  The strings compared
    by the calendar are persisted times, digits around a colon, on
    which the collation order is the order of the code units. *)
Definition localeCompare (a b : string) : Z :=
  match String.compare a b with
  | Lt => (-1)%Z
  | Eq => 0%Z
  | Gt => 1%Z
  end.

(** Truthiness of a string that may be [undefined] or [null]. *)
Definition truthy (s : option string) : bool :=
  match s with
  | Some EmptyString | None => false
  | Some _ => true
  end.

(** [a || b] on such values. *)
Definition or (a b : option string) : option string :=
  if truthy a then a else b.

(** [s.split(sep)] for a separator of one character. *)
Fixpoint split (sep : ascii) (s : string) : list string :=
  match s with
  | EmptyString => [EmptyString]
  | String c s' =>
      if Ascii.eqb c sep then EmptyString :: split sep s'
      else
        match split sep s' with
        | part :: parts => String c part :: parts
        | [] => [String c EmptyString]
        end
  end.

Fixpoint trimStart (s : string) : string :=
  match s with
  | EmptyString => EmptyString
  | String c s' => if isWhiteSpace c then trimStart s' else s
  end.

Fixpoint trimEnd (s : string) : string :=
  match s with
  | EmptyString => EmptyString
  | String c s' =>
      match trimEnd s' with
      | EmptyString =>
          if isWhiteSpace c then EmptyString else String c EmptyString
      | rest => String c rest
      end
  end.

(** [s.trim()], within ASCII. *)
Definition trim (s : string) : string := trimEnd (trimStart s).

Fixpoint digitsValue (acc : nat) (s : string) : option nat :=
  match s with
  | EmptyString => Some acc
  | String c s' =>
      if isDigit c then digitsValue (10 * acc + digitValue c) s' else None
  end.

(** [Number(s)] and [parseInt(s)] on a string of decimal digits that
    is not empty: both give its value.  Other strings, on which the
    two differ or give [NaN], are not modelled: [None]. *)
Definition parseDigits (s : string) : option nat :=
  match s with
  | EmptyString => None
  | String _ _ => digitsValue 0 s
  end.

End JSString.

(** [/^\d{4}-\d{2}-\d{2}$/.test(s)]. *)
Definition matchesDatePattern (s : string) : bool :=
  match list_ascii_of_string s with
  | [y1; y2; y3; y4; h1; m1; m2; h2; d1; d2] =>
      forallb JSString.isDigit [y1; y2; y3; y4; m1; m2; d1; d2]
      && Ascii.eqb h1 "-" && Ascii.eqb h2 "-"
  | _ => false
  end.

(** ** JavaScript arrays: [Array.prototype.sort] *)

Module JSArray.
Section Sort.

Context {A : Type}.

(** The comparison function; [None] is a thrown exception. *)
Variable comparefn : A -> A -> option Z.

(** One step of the stable insertion sort: the new element [x] moves
  left over the elements it compares strictly below.  The sorted
  prefix is held right to left, so the comparisons are made in the
  order the loop makes them, and an exception ends the sort. *)
Fixpoint insertRev (x : A) (rp : list A) : option (list A) :=
match rp with
| [] => Some [x]
| y :: rp' =>
    match comparefn x y with
    | None => None
    | Some o =>
        if (o <? 0)%Z then
          match insertRev x rp' with
          | None => None
          | Some r => Some (y :: r)
          end
        else Some (x :: rp)
    end
end.

Fixpoint sortFrom (rp l : list A) : option (list A) :=
match l with
| [] => Some (rev rp)
| x :: l' =>
    match insertRev x rp with
    | None => None
    | Some rp' => sortFrom rp' l'
    end
end.

(** [l.sort(comparefn)]: a stable sort, as the language requires. *)
Definition sort (l : list A) : option (list A) := sortFrom [] l.

End Sort.
End JSArray.

(** ** The slot generators *)

(** The loop shared by the two generators:
    [for (hour = startHour; hour < endHour; hour++) for (minute of [0, 30])],
    where [skip hour minute] is the condition of the [continue]. *)
Definition slotLoop (skip : nat -> nat -> bool) (selectedDate : Date)
    (startHour endHour : nat) : list Date :=
  flat_map
    (fun hour =>
       flat_map
         (fun minute =>
            if skip hour minute then []
            else [JSDate.setHours selectedDate hour minute 0 0])
         [0; 30])
    (seq startHour (endHour - startHour)).

(** The start hour both generators compute before the loop. *)
Definition slotStartHour (now selectedDate : Date) : nat :=
  let startHour := 9 in
  if isToday now selectedDate then
    let currentHour := JSDate.getHours now in
    let currentMinute := JSDate.getMinutes now in
    if startHour <=? currentHour then
      if 30 <=? currentMinute then currentHour + 1 else currentHour
    else startHour
  else startHour.

(** The time of day of each slot, as [(hour, minute)]. *)
Definition slotTimes (slots : list Date) : list (nat * nat) :=
  map (fun s => (JSDate.getHours s, JSDate.getMinutes s)) slots.

(** The sixteen half-hour starts of the working window. *)
Definition workingWindow : list (nat * nat) :=
  [ (9, 0); (9, 30); (10, 0); (10, 30); (11, 0); (11, 30); (12, 0); (12, 30);
    (13, 0); (13, 30); (14, 0); (14, 30); (15, 0); (15, 30); (16, 0); (16, 30) ].

(** A slot of the working window: on a half hour, from 09:00 to 16:30. *)
Definition inWorkingWindow (s : Date) : Prop :=
  (JSDate.getMinutes s = 0 \/ JSDate.getMinutes s = 30)
  /\ 9 <= JSDate.getHours s <= 16.

(** The date string both dialogs build on submission:
    [`${year}-${month.toString().padStart(2, '0')}-${day.toString().padStart(2, '0')}`]. *)
Definition manualDateFormat (date : Date) : string :=
  let year := JSDate.getFullYear date in
  let month := JSDate.getMonth date + 1 in
  let day := JSDate.getDate date in
  JSString.toString year ++ "-"
  ++ JSString.padStart 2 "0" (JSString.toString month) ++ "-"
  ++ JSString.padStart 2 "0" (JSString.toString day).

(** The canonical encoding ["YYYY-MM-DD"], digit by digit: a year of
    four digits, a month and a day of two digits each, zero-padded. *)
Definition twoDigits (n : nat) : string :=
  String (JSString.digitChar (n / 10))
    (String (JSString.digitChar (n mod 10)) EmptyString).

Definition fourDigits (n : nat) : string :=
  String (JSString.digitChar (n / 1000))
    (String (JSString.digitChar (n / 100 mod 10)) (twoDigits (n mod 100))).

Definition canonicalDate (year month day : nat) : string :=
  fourDigits year ++ "-" ++ twoDigits month ++ "-" ++ twoDigits day.

(** date-fns [format(time, 'HH:mm')] of a valid date: the hours and the
    minutes, two digits each. *)
Definition formatHHmm (time : Date) : string :=
  twoDigits (JSDate.getHours time) ++ ":"
  ++ twoDigits (JSDate.getMinutes time).

(** The string parts both dialogs read a calendar selection from:
    the year, the month and the day of ["YYYY-MM-DD"], the month moved
    to the 0-indexed month of a [Date], at noon. *)
Definition dateAtNoon (year month day : nat) : option Date :=
  if 1 <=? month then JSDate.fromParts year (month - 1) day 12 0 0 0
  else None.

(** The signed-in user both dialogs read from the authentication
    context. *)
Record User : Type := mkUser {
  uid : string;
  email : string
}.

Inductive RecurrencePattern : Type :=
| daily | weekly | biweekly | monthly | quarterly | yearly.

(** ** The appointment scheduler *)

Module AppointmentScheduler.

(** The state of the dialog that [validateInputs] reads. *)
Record Form : Type := mkForm {
  doctorName : string;
  specialty : string;
  location : string;
  date : DateField;
  time : DateField;
  selectedTimeSlot : option Date;
  showManualTimeInput : bool;
  isRecurring : bool;
  recurrencePattern : option RecurrencePattern;
  recurrenceEnd : DateField;
  duration : Z
}.

(** [generateTimeSlots]. *)
Definition generateTimeSlots (now selectedDate : Date) : list Date :=
  let startHour := slotStartHour now selectedDate in
  let endHour := 17 in
  slotLoop
    (fun hour minute =>
       isToday now selectedDate
       && (((hour =? startHour) && (minute <? JSDate.getMinutes now)
            && (30 <? JSDate.getMinutes now))
           || (hour <? JSDate.getHours now)))
    selectedDate startHour endHour.

(** The date rule of [validateInputs]. *)
Definition dateError (now : Date) (f : Form) : option string :=
  match date f with
  | NoDate => Some "Date is required"
  | InvalidDate => Some "Valid date is required"
  | ValidDate d =>
      if JSDate.isBefore d (JSDate.startOfDay now) && negb (isToday now d)
      then Some "Date cannot be in the past"
      else None
  end.

(** The time rule of [validateInputs].  [selectedDateTime] is the
    selected date with the hours and minutes of the selected time; on
    a missing or invalid date [isToday] is false. *)
Definition timeError (now : Date) (f : Form) : option string :=
  match time f with
  | NoDate => Some "Time is required"
  | InvalidDate => Some "Valid time is required"
  | ValidDate t =>
      if negb (bool_decide (is_Some (selectedTimeSlot f)))
         && negb (showManualTimeInput f)
      then Some "Please select a time slot"
      else
        match date f with
        | ValidDate d =>
            let selectedDateTime :=
              JSDate.setHoursMinutes d (JSDate.getHours t)
                                     (JSDate.getMinutes t) in
            if isToday now d && JSDate.isBefore selectedDateTime now
            then Some "Time cannot be in the past"
            else None
        | _ => None
        end
  end.

(** The two recurrence rules; the second overwrites the first's key,
    and they exclude each other. *)
Definition recurrenceError (f : Form) : option string :=
  if isRecurring f then
    match recurrencePattern f with
    | None => Some "Please select a recurrence pattern"
    | Some _ =>
        match recurrenceEnd f with
        | NoDate => None
        | InvalidDate => Some "Invalid recurrence end date"
        | ValidDate e =>
            match date f with
            | ValidDate d =>
                if JSDate.isBefore e d
                then Some "Recurrence end date must be after appointment date"
                else None
            | _ => None
            end
        end
    end
  else None.

(** The duration rule.  The number is the one the duration field
    keeps, [parseInt(text) || 30]: an integer, negative ones
    included. *)
Definition durationError (f : Form) : option string :=
  if (duration f =? 0)%Z then Some "Duration is required"
  else if (duration f <? 15)%Z
  then Some "Duration must be at least 15 minutes"
  else if (240 <? duration f)%Z then Some "Duration cannot exceed 4 hours"
  else None.

(** [newErrors[key] = message] when the rule reports one. *)
Definition report (key : string) (e : option string)
    (newErrors : gmap string string) : gmap string string :=
  match e with
  | Some message => <[key := message]> newErrors
  | None => newErrors
  end.

(** [validateInputs]: the object of field errors. *)
Definition validateInputs (now : Date) (f : Form) : gmap string string :=
  let newErrors : gmap string string := ∅ in
  let newErrors :=
    report "doctorName"
      (if JSString.isBlank (doctorName f)
       then Some "Doctor name is required" else None) newErrors in
  let newErrors :=
    report "specialty"
      (if JSString.isBlank (specialty f)
       then Some "Specialty is required" else None) newErrors in
  let newErrors :=
    report "location"
      (if JSString.isBlank (location f)
       then Some "Location is required" else None) newErrors in
  let newErrors := report "date" (dateError now f) newErrors in
  let newErrors := report "time" (timeError now f) newErrors in
  let newErrors := report "recurrence" (recurrenceError f) newErrors in
  let newErrors := report "duration" (durationError f) newErrors in
  newErrors.

(** [formattedDate] of [handleSchedule]. *)
Definition formattedDate (date : Date) : string := manualDateFormat date.

(** [handleCustomCalendarSelect(day)]: the date given to [setDate],
    read from [day.dateString]. *)
Definition handleCustomCalendarSelect (dateString : string) : option Date :=
  match map JSString.parseDigits (JSString.split "-" dateString) with
  | Some year :: Some month :: Some dayOfMonth :: _ =>
      dateAtNoon year month dayOfMonth
  | _ => None
  end.

(** [handleTimeSlotSelect(slot)]: the slot becomes the selected slot
    and the time. *)
Definition handleTimeSlotSelect (slot : Date) (f : Form) : Form :=
  mkForm (doctorName f) (specialty f) (location f) (date f)
         (ValidDate slot) (Some slot) (showManualTimeInput f)
         (isRecurring f) (recurrencePattern f) (recurrenceEnd f)
         (duration f).

(** The fields of [appointmentData] the calendar reads, and the
    duration. *)
Record AppointmentData : Type := mkAppointmentData {
  dataDoctorName : string;
  dataSpecialty : string;
  dataDate : string;
  dataTime : string;
  dataLocation : string;
  dataStatus : string;
  dataDuration : Z;
  dataIsRecurring : bool;
  dataColor : option string;
  dataRecurrencePattern : option RecurrencePattern;
  dataRecurrenceEnd : option string
}.

(** [handleSchedule]: the [appointmentData] given to [addAppointment]
    or [saveAppointment], [None] when nothing is given to them: a
    submission is under way ([isSubmitting]), the form has validation
    errors, nobody is signed in or the user has no [uid] (the handler
    throws ['User not logged in'] once the data is built), or the
    formatting throws and the [catch] takes over.  [appointmentColor]
    is the colour state of the dialog. *)
Definition handleSchedule (Colors_light_primary : string)
    (isSubmitting : bool) (typedUser : option User) (now : Date)
    (f : Form) (appointmentColor : string) : option AppointmentData :=
  if isSubmitting then None
  else
    let newErrors := validateInputs now f in
    if 0 <? size newErrors then None
    else
      match date f, time f with
      | ValidDate date, ValidDate time =>
          let recurring :=
            isRecurring f && bool_decide (is_Some (recurrencePattern f)) in
          let appointmentData :=
            mkAppointmentData
              (JSString.trim (doctorName f)) (JSString.trim (specialty f))
              (formattedDate date) (formatHHmm time)
              (JSString.trim (location f)) "upcoming"
              (if (duration f =? 0)%Z then 30%Z else duration f)
              (isRecurring f)
              (JSString.or (Some appointmentColor)
                           (Some Colors_light_primary))
              (if recurring then recurrencePattern f else None)
              (if recurring then
                 match recurrenceEnd f with
                 | ValidDate e => Some (manualDateFormat e)
                 | _ => None
                 end
               else None) in
          match typedUser with
          | Some user =>
              if JSString.truthy (Some (uid user)) then Some appointmentData
              else None
          | None => None
          end
      | _, _ => None
      end.

End AppointmentScheduler.

(** ** The event dialog *)

Module AddEventModal.

Inductive Category : Type := personal | work | social | health | other.

Inductive Status : Type := upcoming | completed | cancelled.

#[export] Instance Status_eq_dec : EqDecision Status.
Proof. solve_decision. Defined.

(** The fields of [Event] the calendar reads. *)
Record Event : Type := mkEvent {
  id : option string;
  title : string;
  date : string;
  time : option string;
  location : string;
  isAllDay : bool;
  isRecurring : bool;
  recurrencePattern : option string;
  recurrenceEnd : option string;
  category : Category;
  color : option string;
  status : Status
}.

(** The state of the dialog that [validateForm] reads. *)
Record Form : Type := mkForm {
  formTitle : string;
  formLocation : string;
  formDate : DateField;
  formTime : DateField;
  formIsAllDay : bool;
  formIsRecurring : bool;
  formRecurrencePattern : option string
}.

(** [generateTimeSlots]. *)
Definition generateTimeSlots (now selectedDate : Date) : list Date :=
  let startHour := slotStartHour now selectedDate in
  let endHour := 17 in
  slotLoop
    (fun hour minute =>
       isToday now selectedDate && (hour =? startHour)
       && (minute <? JSDate.getMinutes now)
       && (30 <? JSDate.getMinutes now))
    selectedDate startHour endHour.

Definition dateError (now : Date) (f : Form) : option string :=
  match formDate f with
  | NoDate => Some "Date is required"
  | InvalidDate => Some "Valid date is required"
  | ValidDate d =>
      if JSDate.isBefore d now && negb (isToday now d)
      then Some "Date cannot be in the past"
      else None
  end.

(** The time rule of [validateForm]: only when the event is not all
    day, and only presence and validity. *)
Definition timeError (f : Form) : option string :=
  if negb (formIsAllDay f) then
    match formTime f with
    | NoDate => Some "Time is required"
    | InvalidDate => Some "Valid time is required"
    | ValidDate _ => None
    end
  else None.

Definition recurrenceError (f : Form) : option string :=
  if formIsRecurring f && negb (JSString.truthy (formRecurrencePattern f))
  then Some "Please select a recurrence pattern"
  else None.

(** [validateForm]: the object of field errors. *)
Definition validateForm (now : Date) (f : Form) : gmap string string :=
  let newErrors : gmap string string := ∅ in
  let newErrors :=
    AppointmentScheduler.report "title"
      (if JSString.isBlank (formTitle f)
       then Some "Event title is required" else None) newErrors in
  let newErrors :=
    AppointmentScheduler.report "location"
      (if JSString.isBlank (formLocation f)
       then Some "Location is required" else None) newErrors in
  let newErrors :=
    AppointmentScheduler.report "date" (dateError now f) newErrors in
  let newErrors :=
    AppointmentScheduler.report "time" (timeError f) newErrors in
  let newErrors :=
    AppointmentScheduler.report "recurrence" (recurrenceError f) newErrors in
  newErrors.

(** [formattedDate] of [handleAddEvent]. *)
Definition formattedDate (date : Date) : string := manualDateFormat date.

(** [getCategoryColor(cat)], on the categories of the dialog; the
    fall-back to [categoryColors.other] is for other strings. *)
Definition getCategoryColor (cat : Category) : string :=
  match cat with
  | personal => "#FF9500"
  | work => "#007AFF"
  | social => "#FF2D55"
  | health => "#4CD964"
  | other => "#8E8E93"
  end.

(** The effect on [initialDate]: the date given to [setDate], [None]
    when the effect sets none. *)
Definition initialDateEffect (initialDate : option string) : option Date :=
  match initialDate with
  | None | Some EmptyString => None
  | Some s =>
      let dateParts := JSString.split "-" s in
      if length dateParts =? 3 then
        match map JSString.parseDigits dateParts with
        | [Some year; Some month; Some day] => dateAtNoon year month day
        | _ => None
        end
      else None
  end.

(** [handleAddEvent]: the [eventData] given to [addEvent], [None] when
    nothing is given to it: a submission is under way
    ([isSubmitting]), the form has validation errors, nobody is signed
    in ([typedUser] is [null]), or the formatting throws and the
    [catch] takes over.  The state read beyond the validated form is
    the end of the recurrence and the category. *)
Definition handleAddEvent (isSubmitting : bool) (typedUser : option User)
    (now : Date) (f : Form)
    (formRecurrenceEnd : DateField) (formCategory : Category)
    : option Event :=
  if isSubmitting then None
  else
  let newErrors := validateForm now f in
  if 0 <? size newErrors then None
  else if negb (bool_decide (is_Some typedUser)) then None
  else
    match formDate f with
    | ValidDate date =>
        let formattedTime :=
          if formIsAllDay f then Some None
          else
            match formTime f with
            | ValidDate time => Some (Some (formatHHmm time))
            | _ => None
            end in
        let recurring :=
          formIsRecurring f && JSString.truthy (formRecurrencePattern f) in
        match formattedTime with
        | Some formattedTime =>
            Some
              (mkEvent None (JSString.trim (formTitle f))
                 (formattedDate date) formattedTime
                 (JSString.trim (formLocation f))
                 (formIsAllDay f) (formIsRecurring f)
                 (if recurring then formRecurrencePattern f else None)
                 (if recurring then
                    match formRecurrenceEnd with
                    | NoDate => None
                    | InvalidDate => Some "NaN-NaN-NaN"
                    | ValidDate e => Some (manualDateFormat e)
                    end
                  else None)
                 formCategory (Some (getCategoryColor formCategory))
                 upcoming)
        | None => None
        end
    | _ => None
    end.

End AddEventModal.

(** ** The calendar screen *)

Module CalendarScreen.

Import AddEventModal.

(** The screen's own [Appointment] type. *)
Record Appointment : Type := mkAppointment {
  aptId : string;
  aptDoctorName : string;
  aptSpecialty : string;
  aptDate : string;
  aptTime : string;
  aptLocation : string;
  aptStatus : string;
  aptIsRecurring : bool;
  aptRecurrencePattern : option string;
  aptRecurrenceEnd : option string;
  aptColor : option string
}.

(** An element of [combinedEvents]: an event as it is, or an
    appointment spread into an object that adds [title],
    [category: 'appointment'] and [isAppointment: true]. *)
Inductive AgendaItem : Type :=
| EventItem (e : Event)
| AppointmentItem (a : Appointment) (title : string).

Definition isAppointment (i : AgendaItem) : bool :=
  match i with
  | EventItem _ => false
  | AppointmentItem _ _ => true
  end.

(** [item.isAllDay]; an appointment has no such field. *)
Definition itemIsAllDay (i : AgendaItem) : bool :=
  match i with
  | EventItem e => isAllDay e
  | AppointmentItem _ _ => false
  end.

Definition itemTime (i : AgendaItem) : option string :=
  match i with
  | EventItem e => time e
  | AppointmentItem a _ => Some (aptTime a)
  end.

Definition itemDate (i : AgendaItem) : string :=
  match i with
  | EventItem e => date e
  | AppointmentItem a _ => aptDate a
  end.

(** The callback given to [listenToAppointments] keeps the active
    appointments only; its result is the [appointments] state. *)
Definition activeAppointments (appointmentsList : list Appointment)
    : list Appointment :=
  filter (fun apt => aptStatus apt ≠ "cancelled") appointmentsList.

Definition toAgendaItem (apt : Appointment) : AgendaItem :=
  AppointmentItem apt
    ("Dr. " ++ aptDoctorName apt ++ " (" ++ aptSpecialty apt ++ ")").

(** The comparison function of the agenda.  [a.time.localeCompare]
    throws on a [null] time of [a]; a [null] time of [b] is compared
    as the string ["null"]. *)
Definition compareItems (a b : AgendaItem) : option Z :=
  if itemIsAllDay a then Some (-1)%Z
  else if itemIsAllDay b then Some 1%Z
  else
    match itemTime a with
    | None => None
    | Some ta =>
        Some (JSString.localeCompare ta (default "null" (itemTime b)))
    end.

(** [updateSelectedDateEvents(date)] over the state [events],
    [appointments]: the value given to [setSelectedDateEvents], or
    [None] when the comparison throws. *)
Definition updateSelectedDateEvents (events : list Event)
    (appointments : list Appointment) (date : string)
    : option (list AgendaItem) :=
  let dateEvents :=
    filter (fun event => AddEventModal.date event = date) events in
  let dateAppointments :=
    filter (fun apt => aptDate apt = date) appointments in
  let combinedEvents :=
    map EventItem dateEvents ++ map toAgendaItem dateAppointments in
  JSArray.sort compareItems combinedEvents.

(** The agenda of a date after both listeners delivered a snapshot. *)
Definition agendaForDate (eventsList : list Event)
    (appointmentsList : list Appointment) (date : string)
    : option (list AgendaItem) :=
  updateSelectedDateEvents eventsList (activeAppointments appointmentsList)
                           date.

(** [handleDeleteEvent(eventId)]: the update it gives to [setEvents]
    once the event is deleted from the store. *)
Definition handleDeleteEvent (eventId : string) (prev : list Event)
    : list Event :=
  filter (fun event => id event ≠ Some eventId) prev.

(** A marker of the multi-dot calendar. *)
Record Dot : Type := mkDot {
  key : option string;
  dotColor : string
}.

(** The marking of one date; the selection fields are absent on a
    date that is not selected. *)
Record Marking : Type := mkMarking {
  dots : list Dot;
  selected : option bool;
  selectedColor : option string;
  selectedTextColor : option string
}.

Section WithColors.

(** [Colors.light.primary], [Colors.light.wellness],
    [Colors.light.appointment] and the [colors.primary] of the
    active colour scheme: the constants module is not part of the
    sources at hand. *)
Variables Colors_light_primary Colors_light_wellness : string.
Variables Colors_light_appointment colors_primary : string.

(** [format(new Date(dateStr), 'yyyy-MM-dd')] of a string that is not
    in the canonical format: the engine's date parser, [None] when
    the date is invalid and [format] throws. *)
Variable parseAndFormat : string -> option string.

Definition EVENT_COLORS (c : Category) : option string :=
  match c with
  | personal => Some Colors_light_primary
  | work => Some "#FF9500"
  | social => None
  | health => Some Colors_light_wellness
  | other => Some "#8E8E93"
  end.

(** [formatDateString] of [updateMarkedDates]. *)
Definition formatDateString (dateStr : string) : string :=
  if negb (JSString.truthy (Some dateStr)) then ""
  else if matchesDatePattern dateStr then dateStr
  else default dateStr (parseAndFormat dateStr).

(** [event.color || EVENT_COLORS[event.category || 'other'] || Colors.light.primary]. *)
Definition eventColor (event : Event) : string :=
  default Colors_light_primary
    (JSString.or (JSString.or (color event) (EVENT_COLORS (category event)))
                 (Some Colors_light_primary)).

(** The dot of an event, [{ key: event.id, color: color }], and the dot
    of an appointment. *)
Definition eventDot (event : Event) : Dot :=
  mkDot (id event) (eventColor event).

Definition appointmentDot (appointment : Appointment) : Dot :=
  mkDot (Some (aptId appointment)) Colors_light_appointment.

(** The two branches on [marked[formattedDate]]: push one more dot,
    or make the first one. *)
Definition addDot (formattedDate : string) (dot : Dot)
    (marked : gmap string Marking) : gmap string Marking :=
  match marked !! formattedDate with
  | Some m =>
      <[formattedDate :=
          mkMarking (dots m ++ [dot]) (selected m) (selectedColor m)
                    (selectedTextColor m)]> marked
  | None => <[formattedDate := mkMarking [dot] None None None]> marked
  end.

Definition markEvent (marked : gmap string Marking) (event : Event)
    : gmap string Marking :=
  if decide (status event ≠ cancelled) then
    addDot (formatDateString (date event)) (eventDot event) marked
  else marked.

Definition markAppointment (marked : gmap string Marking)
    (appointment : Appointment) : gmap string Marking :=
  addDot (formatDateString (aptDate appointment))
         (appointmentDot appointment) marked.

(** [updateMarkedDates(eventsList, appointmentsList)] with the
    state [selected]: the value given to [setMarkedDates]. *)
Definition updateMarkedDates (selected : string) (eventsList : list Event)
    (appointmentsList : list Appointment) : gmap string Marking :=
  let marked : gmap string Marking := ∅ in
  let marked := fold_left markEvent eventsList marked in
  let marked := fold_left markAppointment appointmentsList marked in
  match marked !! selected with
  | Some m =>
      <[selected :=
          mkMarking (dots m) (Some true) (Some (colors_primary ++ "80")%string)
                    (Some "#ffffff")]> marked
  | None =>
      <[selected :=
          mkMarking [] (Some true) (Some (colors_primary ++ "80")%string)
                    (Some "#ffffff")]> marked
  end.

(** The state of the render in which the two listeners are
    registered.  The effect that registers them depends on
    [currentUser] alone, so the two callbacks, and the
    [updateMarkedDates] they call, go on reading this state, whatever
    the state of the screen has become when a snapshot arrives. *)
Record Subscription : Type := mkSubscription {
  subscribedSelected : string;
  subscribedEvents : list Event;
  subscribedAppointments : list Appointment
}.

(** The callback given to [listenToEvents]: the value it gives to
    [setMarkedDates]. *)
Definition onEventsSnapshot (sub : Subscription) (eventsList : list Event)
    : gmap string Marking :=
  updateMarkedDates (subscribedSelected sub) eventsList
                    (subscribedAppointments sub).

(** The callback given to [listenToAppointments]: the value it gives
    to [setMarkedDates]. *)
Definition onAppointmentsSnapshot (sub : Subscription)
    (appointmentsList : list Appointment) : gmap string Marking :=
  updateMarkedDates (subscribedSelected sub) (subscribedEvents sub)
                    (activeAppointments appointmentsList).

(** The colour of an event's marker, in words: the event's own colour
    when it has one that is not empty; otherwise the colour of its
    category, orange for work, grey for other, the wellness colour for
    health, the primary colour for personal and for social, which has
    no colour of its own; and the primary colour again where that
    colour is empty. *)
Definition ownOrCategoryColor (event : Event) : string :=
  match color event with
  | Some (String c s) => String c s
  | _ =>
      match category event with
      | work => "#FF9500"
      | other => "#8E8E93"
      | health =>
          match Colors_light_wellness with
          | EmptyString => Colors_light_primary
          | wellness => wellness
          end
      | personal | social => Colors_light_primary
      end
  end.

End WithColors.

End CalendarScreen.

(** ** The fallback date picker *)

Module DatePickerFallback.

(** [generateTimeSlots] of the picker: the half hours from 00:00 to
    23:30 on the day of [tempDate], nothing skipped.  The loop runs
    through the night, where the clocks change, so [setHours] is the
    one of the zone. *)
Definition generateTimeSlots (zone : JSDate.Zone) (tempDate : Date)
    : list Date :=
  flat_map
    (fun hour =>
       map (fun minute => JSDate.setHoursIn zone tempDate hour minute)
           [0; 30])
    (seq 0 24).

End DatePickerFallback.

(** ** The order of the agenda *)

(** The time of day a persisted time denotes, in minutes since
    midnight.  Both dialogs persist [format(time, 'HH:mm')]: two digits
    of hours below 24, a colon, two digits of minutes below 60. *)
Definition parseTime (s : string) : option nat :=
  match list_ascii_of_string s with
  | [h1; h2; c; m1; m2] =>
      let hours := 10 * JSString.digitValue h1 + JSString.digitValue h2 in
      let minutes := 10 * JSString.digitValue m1 + JSString.digitValue m2 in
      if forallb JSString.isDigit [h1; h2; m1; m2] && Ascii.eqb c ":"
         && (hours <? 24) && (minutes <? 60)
      then Some (hours * 60 + minutes)
      else None
  | _ => None
  end.

Definition timeOfDay (i : CalendarScreen.AgendaItem) : option nat :=
  match CalendarScreen.itemTime i with
  | Some s => parseTime s
  | None => None
  end.

(** An item as the dialogs save it: all day, or with a time of day. *)
Definition wellTimed (i : CalendarScreen.AgendaItem) : Prop :=
  CalendarScreen.itemIsAllDay i = true \/ is_Some (timeOfDay i).

(** The order of the two streams: an event before an appointment. *)
Definition eventsFirst (a b : CalendarScreen.AgendaItem) : Prop :=
  CalendarScreen.isAppointment a = true ->
  CalendarScreen.isAppointment b = true.

(** [a] may stand before [b] in the agenda: all-day items first, then
    ascending time of day, and on a tie the event before the
    appointment. *)
Definition agendaBefore (a b : CalendarScreen.AgendaItem) : Prop :=
  match CalendarScreen.itemIsAllDay a, CalendarScreen.itemIsAllDay b with
  | true, true => eventsFirst a b
  | true, false => True
  | false, true => False
  | false, false =>
      match timeOfDay a, timeOfDay b with
      | Some ta, Some tb => ta < tb \/ (ta = tb /\ eventsFirst a b)
      | _, _ => False
      end
  end.

(** The markers of a date, none when the date has no entry. *)
Definition dotsOn (marked : gmap string CalendarScreen.Marking)
    (d : string) : list CalendarScreen.Dot :=
  match marked !! d with
  | Some m => CalendarScreen.dots m
  | None => []
  end.

(** ** Sample entities *)

(** The example of the specification: an all-day event and an
    appointment at 09:00, both on 1 June 2024. *)
Definition juneEvent : AddEventModal.Event :=
  AddEventModal.mkEvent (Some "e1") "Holiday" "2024-06-01" None "Home"
    true false None None AddEventModal.personal None AddEventModal.upcoming.

Definition juneAppointment : CalendarScreen.Appointment :=
  CalendarScreen.mkAppointment "a1" "Grey" "Cardiology" "2024-06-01" "09:00"
    "Clinic" "scheduled" false None None (Some "#FF0000").

(** An event that repeats weekly from 1 January 2024 on, and a
    cancelled event of that day. *)
Definition weeklyEvent : AddEventModal.Event :=
  AddEventModal.mkEvent (Some "e2") "Review" "2024-01-01" (Some "10:00")
    "Office" false true (Some "weekly") None AddEventModal.work None
    AddEventModal.upcoming.

Definition cancelledEvent : AddEventModal.Event :=
  AddEventModal.mkEvent (Some "e3") "Dinner" "2024-01-01" (Some "19:00")
    "Home" false false None None AddEventModal.personal None
    AddEventModal.cancelled.

(** The clock at noon on 3 June 2024, and an event form of that day
    at 08:05 that repeats weekly. *)
Definition juneNoon : Date := JSDate.mk 2024 5 3 12 0 0 0.

Definition lunchForm : AddEventModal.Form :=
  AddEventModal.mkForm " Lunch " "Cafe" (ValidDate juneNoon)
    (ValidDate (JSDate.mk 2024 5 3 8 5 0 0)) false true (Some "weekly").

(** An appointment of 10 June 2024. *)
Definition tenthAppointment : CalendarScreen.Appointment :=
  CalendarScreen.mkAppointment "a2" "Grey" "Cardiology" "2024-06-10" "09:00"
    "Clinic" "upcoming" false None None None.

(** An appointment form of 4 June 2024 at 14:30, monthly, with a slot
    selected. *)
Definition checkupForm : AppointmentScheduler.Form :=
  AppointmentScheduler.mkForm "Grey" "Cardiology" "Clinic"
    (ValidDate (JSDate.mk 2024 5 4 12 0 0 0))
    (ValidDate (JSDate.mk 2024 5 4 14 30 0 0))
    (Some (JSDate.mk 2024 5 4 14 30 0 0)) false true (Some monthly)
    (ValidDate (JSDate.mk 2024 11 4 12 0 0 0)) 45.

(** A signed-in user. *)
Definition juneUser : User := mkUser "u1" "user@example.org".

(** * Properties *)

(** ** Calendar days *)


Lemma dayBefore_not_sameDay (a b : Date) :
  JSDate.dayBefore a b = true -> JSDate.sameDay a b = false.
Proof.
  unfold JSDate.dayBefore, JSDate.sameDay. intros H.
  destruct (Nat.eqb_spec (JSDate.getFullYear a) (JSDate.getFullYear b));
    destruct (Nat.eqb_spec (JSDate.getMonth a) (JSDate.getMonth b));
    destruct (Nat.eqb_spec (JSDate.getDate a) (JSDate.getDate b));
    simpl; try reflexivity.
  apply orb_prop in H as [H | H].
  - apply Nat.ltb_lt in H. lia.
  - simpl in H. apply orb_prop in H as [H | H]; apply Nat.ltb_lt in H; lia.
Qed.

Lemma sameDay_sym (a b : Date) : JSDate.sameDay a b = JSDate.sameDay b a.
Proof.
  unfold JSDate.sameDay.
  by rewrite (Nat.eqb_sym (JSDate.getFullYear a)),
    (Nat.eqb_sym (JSDate.getMonth a)), (Nat.eqb_sym (JSDate.getDate a)).
Qed.

(** A date on a later or on an earlier day than the clock is not today. *)
Lemma isToday_future (now d : Date) :
  JSDate.dayBefore now d = true -> isToday now d = false.
Proof.
  intros H. unfold isToday. rewrite sameDay_sym.
  by apply dayBefore_not_sameDay.
Qed.

Lemma isToday_past (now d : Date) :
  JSDate.dayBefore d now = true -> isToday now d = false.
Proof. intros H. unfold isToday. by apply dayBefore_not_sameDay. Qed.

(** ** The slot loop *)

Section SlotLoop.

Variable skip : nat -> nat -> bool.
Variable selectedDate : Date.

(** The body of the outer loop, for one hour. *)
Let hourSlots (hour : nat) : list Date :=
  flat_map
    (fun minute =>
       if skip hour minute then []
       else [JSDate.setHours selectedDate hour minute 0 0])
    [0; 30].

Lemma hourSlots_elem (hour : nat) (s : Date) :
  In s (hourSlots hour) ->
  JSDate.getHours s = hour
  /\ (JSDate.getMinutes s = 0 \/ JSDate.getMinutes s = 30).
Proof.
  unfold hourSlots. simpl.
  destruct (skip hour 0), (skip hour 30); simpl; intros H;
    intuition (subst; simpl; auto).
Qed.

Lemma hourSlots_sorted (hour : nat) :
  StronglySorted lt (map JSDate.minuteOfDay (hourSlots hour)).
Proof.
  unfold hourSlots. simpl.
  destruct (skip hour 0), (skip hour 30); simpl;
    repeat constructor. unfold JSDate.minuteOfDay. simpl. lia.
Qed.

(** Every slot lies in an hour the loop visits, on a half hour. *)
Lemma slotLoop_elem (startHour endHour : nat) (s : Date) :
  In s (slotLoop skip selectedDate startHour endHour) ->
  startHour <= JSDate.getHours s < endHour
  /\ (JSDate.getMinutes s = 0 \/ JSDate.getMinutes s = 30).
Proof.
  unfold slotLoop. intros H.
  apply in_flat_map in H as (hour & Hhour & Hs).
  apply in_seq in Hhour.
  apply (hourSlots_elem hour) in Hs as [Hh Hm].
  split; [lia | assumption].
Qed.

Lemma hours_sorted (n startHour : nat) :
  StronglySorted lt
    (map JSDate.minuteOfDay (flat_map hourSlots (seq startHour n))).
Proof.
  revert startHour. induction n as [| n IH]; intros startHour; simpl.
  - constructor.
  - rewrite map_app. apply StronglySorted_app. split; [| split].
    + intros x1 x2 H1 H2.
      apply list_elem_of_In, in_map_iff in H1 as (s1 & <- & H1).
      apply list_elem_of_In, in_map_iff in H2 as (s2 & <- & H2).
      apply hourSlots_elem in H1 as [Hh1 Hm1].
      apply in_flat_map in H2 as (hour & Hhour & H2).
      apply in_seq in Hhour.
      apply hourSlots_elem in H2 as [Hh2 Hm2].
      unfold JSDate.minuteOfDay. lia.
    + apply hourSlots_sorted.
    + apply IH.
Qed.

(** The slots come out in strictly increasing time of day. *)
Lemma slotLoop_sorted (startHour endHour : nat) :
  StronglySorted lt
    (map JSDate.minuteOfDay
         (slotLoop skip selectedDate startHour endHour)).
Proof. apply hours_sorted. Qed.

End SlotLoop.

Lemma slotStartHour_ge (now selectedDate : Date) :
  9 <= slotStartHour now selectedDate.
Proof.
  unfold slotStartHour.
  destruct (isToday now selectedDate); [| lia].
  destruct (Nat.leb_spec 9 (JSDate.getHours now)); [| lia].
  destruct (30 <=? JSDate.getMinutes now); lia.
Qed.

Lemma slotLoop_window (skip : nat -> nat -> bool) (now selectedDate : Date) :
  Forall inWorkingWindow
    (slotLoop skip selectedDate (slotStartHour now selectedDate) 17).
Proof.
  apply List.Forall_forall. intros s Hs.
  apply slotLoop_elem in Hs as [Hh Hm].
  pose proof (slotStartHour_ge now selectedDate).
  split; [assumption | lia].
Qed.

(** C9: whatever the clock and the selected date, every slot of either
    generator is on minute 0 or 30 of an hour from 9 to 16, and the
    slots are returned in strictly increasing time of day. *)
Theorem slots_in_window_increasing (now selectedDate : Date) :
  (Forall inWorkingWindow
     (AppointmentScheduler.generateTimeSlots now selectedDate)
   /\ StronglySorted lt
        (map JSDate.minuteOfDay
             (AppointmentScheduler.generateTimeSlots now selectedDate)))
  /\ (Forall inWorkingWindow
        (AddEventModal.generateTimeSlots now selectedDate)
      /\ StronglySorted lt
           (map JSDate.minuteOfDay
                (AddEventModal.generateTimeSlots now selectedDate))).
Proof.
  unfold AppointmentScheduler.generateTimeSlots,
    AddEventModal.generateTimeSlots.
  repeat split; auto using slotLoop_window, slotLoop_sorted.
Qed.

(** On a date that is not today the loop skips nothing and starts at 9. *)
Lemma slots_not_today (now selectedDate : Date) :
  isToday now selectedDate = false ->
  slotTimes (AppointmentScheduler.generateTimeSlots now selectedDate)
  = workingWindow
  /\ slotTimes (AddEventModal.generateTimeSlots now selectedDate)
     = workingWindow.
Proof.
  intros H.
  unfold AppointmentScheduler.generateTimeSlots,
    AddEventModal.generateTimeSlots, slotStartHour.
  rewrite H. split; reflexivity.
Qed.

Lemma slotTimes_length (slots : list Date) :
  length (slotTimes slots) = length slots.
Proof. unfold slotTimes. apply length_map. Qed.

(** C5: on every date strictly after the clock's date, either generator
    returns exactly the sixteen slots 09:00, 09:30, ..., 16:30, in this
    order. *)
Theorem future_date_sixteen_slots (now selectedDate : Date) :
  JSDate.dayBefore now selectedDate = true ->
  (slotTimes (AppointmentScheduler.generateTimeSlots now selectedDate)
   = workingWindow
   /\ length (AppointmentScheduler.generateTimeSlots now selectedDate) = 16)
  /\ (slotTimes (AddEventModal.generateTimeSlots now selectedDate)
      = workingWindow
      /\ length (AddEventModal.generateTimeSlots now selectedDate) = 16).
Proof.
  intros H. apply isToday_future in H.
  destruct (slots_not_today now selectedDate H) as [Ha He].
  repeat split; try assumption.
  - rewrite <- slotTimes_length, Ha. reflexivity.
  - rewrite <- slotTimes_length, He. reflexivity.
Qed.

(** The clock at 09:15 on 3 June 2024, and the next day at noon. *)
Lemma future_date_sixteen_slots_witness :
  JSDate.dayBefore (JSDate.mk 2024 5 3 9 15 0 0)
                   (JSDate.mk 2024 5 4 12 0 0 0) = true
  /\ (slotTimes (AppointmentScheduler.generateTimeSlots
                   (JSDate.mk 2024 5 3 9 15 0 0)
                   (JSDate.mk 2024 5 4 12 0 0 0)) = workingWindow
      /\ length (AppointmentScheduler.generateTimeSlots
                   (JSDate.mk 2024 5 3 9 15 0 0)
                   (JSDate.mk 2024 5 4 12 0 0 0)) = 16)
  /\ (slotTimes (AddEventModal.generateTimeSlots
                   (JSDate.mk 2024 5 3 9 15 0 0)
                   (JSDate.mk 2024 5 4 12 0 0 0)) = workingWindow
      /\ length (AddEventModal.generateTimeSlots
                   (JSDate.mk 2024 5 3 9 15 0 0)
                   (JSDate.mk 2024 5 4 12 0 0 0)) = 16).
Proof.
  split; [reflexivity |].
  apply (future_date_sixteen_slots (JSDate.mk 2024 5 3 9 15 0 0)
                                   (JSDate.mk 2024 5 4 12 0 0 0)).
  reflexivity.
Defined.

(** C3, as stated, fails: with the clock on 3 June 2024 the generators
    return slots for 2 June 2024. *)
Lemma past_date_slots_not_empty :
  AppointmentScheduler.generateTimeSlots (JSDate.mk 2024 5 3 9 15 0 0)
                                         (JSDate.mk 2024 5 2 12 0 0 0)
  <> []
  /\ AddEventModal.generateTimeSlots (JSDate.mk 2024 5 3 9 15 0 0)
                                     (JSDate.mk 2024 5 2 12 0 0 0)
     <> [].
Proof. split; discriminate. Qed.

(** C3, amended: on every date strictly before the clock's date, either
    generator returns the same sixteen slots 09:00, ..., 16:30 as on a
    future date; nothing in the generators looks at past dates. *)
Theorem past_date_sixteen_slots (now selectedDate : Date) :
  JSDate.dayBefore selectedDate now = true ->
  (slotTimes (AppointmentScheduler.generateTimeSlots now selectedDate)
   = workingWindow
   /\ length (AppointmentScheduler.generateTimeSlots now selectedDate) = 16)
  /\ (slotTimes (AddEventModal.generateTimeSlots now selectedDate)
      = workingWindow
      /\ length (AddEventModal.generateTimeSlots now selectedDate) = 16).
Proof.
  intros H. apply isToday_past in H.
  destruct (slots_not_today now selectedDate H) as [Ha He].
  repeat split; try assumption.
  - rewrite <- slotTimes_length, Ha. reflexivity.
  - rewrite <- slotTimes_length, He. reflexivity.
Qed.

Lemma past_date_sixteen_slots_witness :
  JSDate.dayBefore (JSDate.mk 2024 5 2 12 0 0 0)
                   (JSDate.mk 2024 5 3 9 15 0 0) = true
  /\ (slotTimes (AppointmentScheduler.generateTimeSlots
                   (JSDate.mk 2024 5 3 9 15 0 0)
                   (JSDate.mk 2024 5 2 12 0 0 0)) = workingWindow
      /\ length (AppointmentScheduler.generateTimeSlots
                   (JSDate.mk 2024 5 3 9 15 0 0)
                   (JSDate.mk 2024 5 2 12 0 0 0)) = 16)
  /\ (slotTimes (AddEventModal.generateTimeSlots
                   (JSDate.mk 2024 5 3 9 15 0 0)
                   (JSDate.mk 2024 5 2 12 0 0 0)) = workingWindow
      /\ length (AddEventModal.generateTimeSlots
                   (JSDate.mk 2024 5 3 9 15 0 0)
                   (JSDate.mk 2024 5 2 12 0 0 0)) = 16).
Proof.
  split; [reflexivity |].
  apply (past_date_sixteen_slots (JSDate.mk 2024 5 3 9 15 0 0)
                                 (JSDate.mk 2024 5 2 12 0 0 0)).
  reflexivity.
Defined.

(** C2, evaluated: on the clock's own date at 09:15 both generators
    still offer 09:00, a slot before the current time, where the claim
    has 09:30 first; and at 10:45 both skip the whole of 11 o'clock and
    start at 12:00, where the claim has 11:00 first. *)
Theorem today_first_slot_not_rounded :
  (hd_error (slotTimes (AppointmentScheduler.generateTimeSlots
                          (JSDate.mk 2024 5 3 9 15 0 0)
                          (JSDate.mk 2024 5 3 12 0 0 0))) = Some (9, 0)
   /\ hd_error (slotTimes (AddEventModal.generateTimeSlots
                             (JSDate.mk 2024 5 3 9 15 0 0)
                             (JSDate.mk 2024 5 3 12 0 0 0))) = Some (9, 0))
  /\ (hd_error (slotTimes (AppointmentScheduler.generateTimeSlots
                             (JSDate.mk 2024 5 3 10 45 0 0)
                             (JSDate.mk 2024 5 3 12 0 0 0))) = Some (12, 0)
      /\ hd_error (slotTimes (AddEventModal.generateTimeSlots
                                (JSDate.mk 2024 5 3 10 45 0 0)
                                (JSDate.mk 2024 5 3 12 0 0 0))) = Some (12, 0)).
Proof. repeat split. Qed.

(** ** The validators *)

Lemma report_lookup (key k : string) (e : option string)
    (newErrors : gmap string string) :
  AppointmentScheduler.report key e newErrors !! k
  = if decide (key = k) then
      match e with Some message => Some message | None => newErrors !! k end
    else newErrors !! k.
Proof.
  unfold AppointmentScheduler.report.
  destruct e as [message |]; case_decide; subst; try reflexivity.
  - apply lookup_insert_eq.
  - by apply lookup_insert_ne.
Qed.

(** The [time] key of the appointment validator holds the result of the
    time rule. *)
Lemma validateInputs_time (now : Date) (f : AppointmentScheduler.Form) :
  AppointmentScheduler.validateInputs now f !! "time"
  = AppointmentScheduler.timeError now f.
Proof.
  unfold AppointmentScheduler.validateInputs.
  rewrite !report_lookup. simpl.
  repeat (case_decide; try discriminate).
  by destruct (AppointmentScheduler.timeError now f).
Qed.

(** The [time] key of the event validator holds the result of the time
    rule. *)
Lemma validateForm_time (now : Date) (f : AddEventModal.Form) :
  AddEventModal.validateForm now f !! "time" = AddEventModal.timeError f.
Proof.
  unfold AddEventModal.validateForm.
  rewrite !report_lookup. simpl.
  repeat (case_decide; try discriminate).
  by destruct (AddEventModal.timeError f).
Qed.

(** The appointment validator on a date of today, with a valid time and
    a slot selected (or manual input on): it reports a time error
    exactly when the selected date and time are before the clock. *)
Lemma validateInputs_today_time (now d t : Date)
    (f : AppointmentScheduler.Form) :
  AppointmentScheduler.date f = ValidDate d ->
  AppointmentScheduler.time f = ValidDate t ->
  is_Some (AppointmentScheduler.selectedTimeSlot f)
  \/ AppointmentScheduler.showManualTimeInput f = true ->
  isToday now d = true ->
  is_Some (AppointmentScheduler.validateInputs now f !! "time")
  <-> JSDate.isBefore
        (JSDate.setHoursMinutes d (JSDate.getHours t) (JSDate.getMinutes t))
        now = true.
Proof.
  intros Hd Ht Hslot Htoday.
  rewrite validateInputs_time. unfold AppointmentScheduler.timeError.
  rewrite Ht, Hd, Htoday.
  assert (negb (bool_decide
                  (is_Some (AppointmentScheduler.selectedTimeSlot f)))
          && negb (AppointmentScheduler.showManualTimeInput f) = false)
    as ->.
  { destruct Hslot as [Hs | Hm].
    - by rewrite (bool_decide_eq_true_2 _ Hs).
    - rewrite Hm. apply andb_false_r. }
  simpl.
  destruct (JSDate.isBefore _ now); split; intros H;
    try done; try (by eexists); by destruct H.
Qed.

(** C6, evaluated: at noon on 3 June 2024, an event of that day at
    08:00, not all day, passes the event validator with no error at all,
    though its date and time are before the clock; the appointment
    validator rejects the same date and time. *)
Theorem event_validator_accepts_past_time_today :
  let now := JSDate.mk 2024 5 3 12 0 0 0 in
  let d := JSDate.mk 2024 5 3 12 0 0 0 in
  let t := JSDate.mk 2024 5 3 8 0 0 0 in
  let event :=
    AddEventModal.mkForm "Lunch" "Cafe" (ValidDate d) (ValidDate t)
                         false false None in
  let appointment :=
    AppointmentScheduler.mkForm "Grey" "Cardiology" "Clinic" (ValidDate d)
                                (ValidDate t) (Some t) false false None
                                NoDate 30 in
  isToday now d = true
  /\ JSDate.isBefore
       (JSDate.setHoursMinutes d (JSDate.getHours t) (JSDate.getMinutes t))
       now = true
  /\ AddEventModal.validateForm now event !! "time" = None
  /\ AddEventModal.validateForm now event = ∅
  /\ AppointmentScheduler.validateInputs now appointment !! "time"
     = Some "Time cannot be in the past".
Proof.
  cbv zeta. rewrite validateForm_time, validateInputs_time.
  repeat split; vm_compute; reflexivity.
Qed.

(** ** The date string persisted on submission *)

Lemma isDigit_digitChar (k : nat) :
  k < 10 -> JSString.isDigit (JSString.digitChar k) = true.
Proof. intros H. do 10 (destruct k as [| k]; [reflexivity |]). lia. Qed.

(** A number of four digits prints as its four digits. *)
Lemma toString_fourDigits (n : nat) :
  1000 <= n < 100 * 100 -> JSString.toString n = fourDigits n.
Proof.
  intros H.
  assert (forallb (fun k => String.eqb (JSString.toString k) (fourDigits k))
                  (seq 1000 (90 * 100)) = true) as Hall by (vm_compute; reflexivity).
  rewrite forallb_forall in Hall.
  apply String.eqb_eq, Hall, in_seq. lia.
Qed.

(** A number below 100, padded to two characters, is its two digits. *)
Lemma padStart_twoDigits (n : nat) :
  n <= 99 -> JSString.padStart 2 "0" (JSString.toString n) = twoDigits n.
Proof.
  intros H.
  assert (forallb (fun k => String.eqb
                              (JSString.padStart 2 "0" (JSString.toString k))
                              (twoDigits k))
                  (seq 0 100) = true) as Hall by (vm_compute; reflexivity).
  rewrite forallb_forall in Hall.
  apply String.eqb_eq, Hall, in_seq. lia.
Qed.

Lemma matchesDatePattern_digits (y1 y2 y3 y4 m1 m2 d1 d2 : ascii) :
  forallb JSString.isDigit [y1; y2; y3; y4; m1; m2; d1; d2] = true ->
  matchesDatePattern
    (String y1 (String y2 (String y3 (String y4 (String "-"
       (String m1 (String m2 (String "-"
          (String d1 (String d2 EmptyString))))))))))
  = true.
Proof.
  intros H. unfold matchesDatePattern.
  cbn [list_ascii_of_string]. rewrite H. reflexivity.
Qed.

Lemma canonicalDate_shape (year month day : nat) :
  year < 100 * 100 -> month <= 99 -> day <= 99 ->
  String.length (canonicalDate year month day) = 10
  /\ matchesDatePattern (canonicalDate year month day) = true.
Proof.
  intros Hy Hm Hd. split; [reflexivity |].
  apply (matchesDatePattern_digits
           (JSString.digitChar (year / 1000))
           (JSString.digitChar (year / 100 mod 10))
           (JSString.digitChar (year mod 100 / 10))
           (JSString.digitChar (year mod 100 mod 10))
           (JSString.digitChar (month / 10))
           (JSString.digitChar (month mod 10))
           (JSString.digitChar (day / 10))
           (JSString.digitChar (day mod 10))).
  cbn [forallb].
  rewrite !isDigit_digitChar; [reflexivity | ..];
    first [ apply Nat.mod_upper_bound; lia
          | apply Nat.Div0.div_lt_upper_bound; lia
          | apply Nat.Div0.div_lt_upper_bound;
            pose proof (Nat.mod_upper_bound year 100); lia ].
Qed.



(** ** The sort *)

Section SortFacts.

Context {A : Type}.
Variable comparefn : A -> A -> option Z.

Lemma insertRev_Permutation (x : A) (rp r : list A) :
  JSArray.insertRev comparefn x rp = Some r -> Permutation (x :: rp) r.
Proof.
  revert r. induction rp as [| y rp IH]; simpl; intros r H.
  - by inversion H.
  - destruct (comparefn x y) as [o |]; [| discriminate].
    destruct (o <? 0)%Z.
    + destruct (JSArray.insertRev comparefn x rp) as [r' |];
        [| discriminate].
      inversion H; subst. rewrite perm_swap. constructor. by apply IH.
    + by inversion H.
Qed.

Lemma sortFrom_Permutation (rp l r : list A) :
  JSArray.sortFrom comparefn rp l = Some r -> Permutation (rp ++ l) r.
Proof.
  revert rp r. induction l as [| x l IH]; simpl; intros rp r H.
  - inversion H; subst. rewrite app_nil_r. apply Permutation_rev.
  - destruct (JSArray.insertRev comparefn x rp) as [rp' |] eqn:Hins;
      [| discriminate].
    apply IH in H. apply insertRev_Permutation in Hins.
    rewrite <- H, <- Hins. simpl. symmetry. apply Permutation_middle.
Qed.

(** A sort that returns has permuted its input. *)
Lemma sort_Permutation (l r : list A) :
  JSArray.sort comparefn l = Some r -> Permutation l r.
Proof. apply (sortFrom_Permutation []). Qed.

Variable P : A -> Prop.
Hypothesis comparefn_returns :
  forall x y, P x -> P y -> is_Some (comparefn x y).

Lemma insertRev_returns (x : A) (rp : list A) :
  P x -> Forall P rp -> is_Some (JSArray.insertRev comparefn x rp).
Proof.
  intros Hx Hrp. induction Hrp as [| y rp Hy Hrp IH]; simpl.
  - by eexists.
  - destruct (comparefn_returns x y Hx Hy) as [o ->].
    destruct (o <? 0)%Z; [| by eexists].
    destruct IH as [r ->]. by eexists.
Qed.

Lemma sortFrom_returns (rp l : list A) :
  Forall P rp -> Forall P l -> is_Some (JSArray.sortFrom comparefn rp l).
Proof.
  intros Hrp Hl. revert rp Hrp.
  induction Hl as [| x l Hx Hl IH]; simpl; intros rp Hrp.
  - by eexists.
  - destruct (insertRev_returns x rp Hx Hrp) as [rp' Hins].
    rewrite Hins. apply IH.
    apply insertRev_Permutation in Hins. rewrite <- Hins. by constructor.
Qed.

(** The sort returns when the comparison function does. *)
Lemma sort_returns (l : list A) :
  Forall P l -> is_Some (JSArray.sort comparefn l).
Proof. intros Hl. by apply sortFrom_returns. Qed.

(** The order the sort establishes: [before] is the order of the
    result, [pre] relates the elements of the input from left to
    right. *)
Variables before pre : A -> A -> Prop.
Hypothesis before_trans :
  forall x y z, before x y -> before y z -> before x z.
Hypothesis comparefn_below :
  forall x y o, P x -> P y ->
    comparefn x y = Some o -> (o <? 0)%Z = true -> before x y.
Hypothesis comparefn_above :
  forall x y o, P x -> P y -> pre y x ->
    comparefn x y = Some o -> (o <? 0)%Z = false -> before y x.

Lemma insertRev_sorted (x : A) (rp r : list A) :
  P x -> Forall P rp -> Forall (fun y => pre y x) rp ->
  StronglySorted (flip before) rp ->
  JSArray.insertRev comparefn x rp = Some r ->
  StronglySorted (flip before) r.
Proof.
  intros Hx HP Hpre Hsorted. revert r.
  induction Hsorted as [| y rp Hsorted IH Hy]; simpl; intros r H.
  - inversion H. repeat constructor.
  - apply Forall_cons in HP as [HPy HP].
    apply Forall_cons in Hpre as [Hprey Hpre].
    destruct (comparefn x y) as [o |] eqn:Ho; [| discriminate].
    destruct (o <? 0)%Z eqn:Hlt.
    + destruct (JSArray.insertRev comparefn x rp) as [r' |] eqn:Hins;
        [| discriminate].
      inversion H; subst. constructor; [by apply IH |].
      apply insertRev_Permutation in Hins. rewrite <- Hins.
      constructor; [| assumption].
      by apply (comparefn_below x y o).
    + inversion H; subst. constructor; [by constructor |].
      pose proof (comparefn_above x y o Hx HPy Hprey Ho Hlt) as Hyx.
      constructor; [assumption |].
      eapply Forall_impl; [exact Hy |].
      intros z Hz. unfold flip in *. by apply (before_trans z y x).
Qed.

Lemma StronglySorted_rev (rp : list A) :
  StronglySorted (flip before) rp -> StronglySorted before (rev rp).
Proof.
  induction 1 as [| y rp Hsorted IH Hy]; simpl; [constructor |].
  apply StronglySorted_app. split; [| split].
  - intros x1 x2 H1 H2. apply list_elem_of_singleton in H2 as ->.
    rewrite List.Forall_forall in Hy. apply Hy.
    apply list_elem_of_In in H1. by apply in_rev.
  - assumption.
  - repeat constructor.
Qed.

Lemma sortFrom_sorted (rp l r : list A) :
  Forall P rp -> Forall P l -> StronglySorted pre l ->
  (forall y x, y ∈ rp -> x ∈ l -> pre y x) ->
  StronglySorted (flip before) rp ->
  JSArray.sortFrom comparefn rp l = Some r ->
  StronglySorted before r.
Proof.
  intros HPrp HPl. revert rp HPrp r.
  induction HPl as [| x l Hx HPl IH]; simpl;
    intros rp HPrp r Hl Hpre Hsorted H.
  - inversion H; subst. by apply StronglySorted_rev.
  - destruct (JSArray.insertRev comparefn x rp) as [rp' |] eqn:Hins;
      [| discriminate].
    apply StronglySorted_inv in Hl as [Hl Hx'].
    pose proof (insertRev_Permutation _ _ _ Hins) as Hperm.
    apply (IH rp'); try assumption.
    + rewrite <- Hperm. by constructor.
    + intros y x' Hy Hx''. rewrite <- Hperm in Hy.
      apply elem_of_cons in Hy as [-> | Hy].
      * rewrite List.Forall_forall in Hx'. by apply Hx', list_elem_of_In.
      * apply Hpre; [assumption |]. by right.
    + apply (insertRev_sorted x rp); try assumption.
      apply List.Forall_forall. intros y Hy.
      apply Hpre; [by apply list_elem_of_In | by left].
Qed.

(** On an input ordered by [pre], the sort returns a list ordered by
    [before]. *)
Lemma sort_sorted (l r : list A) :
  Forall P l -> StronglySorted pre l ->
  JSArray.sort comparefn l = Some r -> StronglySorted before r.
Proof.
  intros HP Hl H. apply (sortFrom_sorted [] l r); try assumption.
  - constructor.
  - intros y x Hy. by apply elem_of_nil in Hy.
  - constructor.
Qed.

End SortFacts.

(** ** The agenda *)

(** On digits, the order of the characters is the order of their
    values. *)
Lemma compare_digits (a b : ascii) :
  JSString.isDigit a = true -> JSString.isDigit b = true ->
  Ascii.compare a b
  = Nat.compare (JSString.digitValue a) (JSString.digitValue b).
Proof.
  unfold JSString.isDigit, JSString.digitValue, Ascii.compare.
  unfold nat_of_ascii. intros Ha Hb.
  apply andb_prop in Ha as [Ha _]. apply andb_prop in Hb as [Hb _].
  apply Nat.leb_le in Ha, Hb.
  rewrite N2Nat.inj_compare.
  destruct (Nat.compare_spec (N.to_nat (N_of_ascii a))
                             (N.to_nat (N_of_ascii b)));
    symmetry; [apply Nat.compare_eq_iff | apply Nat.compare_lt_iff
              | apply Nat.compare_gt_iff]; lia.
Qed.

Lemma digitValue_bound (a : ascii) :
  JSString.isDigit a = true -> JSString.digitValue a <= 9.
Proof.
  unfold JSString.isDigit, JSString.digitValue. intros H.
  apply andb_prop in H as [_ H]. apply Nat.leb_le in H. lia.
Qed.

(** On persisted times, [localeCompare] is below zero exactly when the
    first time of day is the earlier one. *)
Lemma localeCompare_times (s t : string) (ms mt : nat) :
  parseTime s = Some ms -> parseTime t = Some mt ->
  (JSString.localeCompare s t <? 0)%Z = true <-> ms < mt.
Proof.
  unfold parseTime, JSString.localeCompare.
  destruct s as [| h1 [| h2 [| c [| m1 [| m2 [| ? ?]]]]]]; try discriminate.
  destruct t as [| h1' [| h2' [| c' [| m1' [| m2' [| ? ?]]]]]];
    try discriminate.
  cbn [list_ascii_of_string forallb].
  intros Hs Ht.
  destruct (JSString.isDigit h1) eqn:D1; [| discriminate].
  destruct (JSString.isDigit h2) eqn:D2; [| discriminate].
  destruct (JSString.isDigit m1) eqn:D3; [| discriminate].
  destruct (JSString.isDigit m2) eqn:D4; [| discriminate].
  destruct (JSString.isDigit h1') eqn:D1'; [| discriminate].
  destruct (JSString.isDigit h2') eqn:D2'; [| discriminate].
  destruct (JSString.isDigit m1') eqn:D3'; [| discriminate].
  destruct (JSString.isDigit m2') eqn:D4'; [| discriminate].
  cbn [andb] in Hs, Ht.
  destruct (Ascii.eqb_spec c ":") as [-> |]; [| discriminate].
  destruct (Ascii.eqb_spec c' ":") as [-> |]; [| discriminate].
  cbn [andb] in Hs, Ht.
  destruct (Nat.ltb_spec (10 * JSString.digitValue h1
                          + JSString.digitValue h2) 24);
    [| discriminate].
  destruct (Nat.ltb_spec (10 * JSString.digitValue m1
                          + JSString.digitValue m2) 60);
    [| discriminate].
  destruct (Nat.ltb_spec (10 * JSString.digitValue h1'
                          + JSString.digitValue h2') 24);
    [| discriminate].
  destruct (Nat.ltb_spec (10 * JSString.digitValue m1'
                          + JSString.digitValue m2') 60);
    [| discriminate].
  cbn [andb] in Hs, Ht. inversion Hs; inversion Ht; subst. clear Hs Ht.
  cbn [String.compare].
  rewrite (compare_digits h1 h1'), (compare_digits h2 h2'),
    (compare_digits m1 m1'), (compare_digits m2 m2') by assumption.
  change (Ascii.compare ":" ":") with Eq. cbv iota.
  apply digitValue_bound in D1, D2, D3, D4, D1', D2', D3', D4'.
  destruct (Nat.compare_spec (JSString.digitValue h1)
                             (JSString.digitValue h1'));
    destruct (Nat.compare_spec (JSString.digitValue h2)
                               (JSString.digitValue h2'));
    destruct (Nat.compare_spec (JSString.digitValue m1)
                               (JSString.digitValue m1'));
    destruct (Nat.compare_spec (JSString.digitValue m2)
                               (JSString.digitValue m2'));
    cbn; split; intros; try discriminate; try reflexivity; try lia.
Qed.

Import AddEventModal CalendarScreen.

Lemma allDay_is_event (i : AgendaItem) :
  itemIsAllDay i = true -> isAppointment i = false.
Proof. by destruct i. Qed.

Lemma agendaBefore_trans (x y z : AgendaItem) :
  agendaBefore x y -> agendaBefore y z -> agendaBefore x z.
Proof.
  unfold agendaBefore, eventsFirst.
  destruct (itemIsAllDay x), (itemIsAllDay y), (itemIsAllDay z);
    try tauto;
    destruct (timeOfDay x), (timeOfDay y), (timeOfDay z); try tauto.
  intros [Hxy | [Hxy Hxy']] [Hyz | [Hyz Hyz']];
    first [ left; lia | right; split; [lia | tauto] ].
Qed.

(** The comparison function returns on items that have a time unless
    they are all day. *)
Lemma compareItems_returns (x y : AgendaItem) :
  itemIsAllDay x = true \/ is_Some (itemTime x) ->
  itemIsAllDay y = true \/ is_Some (itemTime y) ->
  is_Some (compareItems x y).
Proof.
  unfold compareItems. intros Hx Hy.
  destruct (itemIsAllDay x); [by eexists |].
  destruct (itemIsAllDay y); [by eexists |].
  destruct Hx as [? | [tx ->]]; [discriminate |]. by eexists.
Qed.

Lemma wellTimed_has_time (i : AgendaItem) :
  wellTimed i -> itemIsAllDay i = true \/ is_Some (itemTime i).
Proof.
  unfold wellTimed, timeOfDay. intros [H | H]; [by left | right].
  destruct (itemTime i); [by eexists | by destruct H].
Qed.

Lemma compareItems_below (x y : AgendaItem) (o : Z) :
  wellTimed x -> wellTimed y ->
  compareItems x y = Some o -> (o <? 0)%Z = true -> agendaBefore x y.
Proof.
  unfold compareItems, agendaBefore, wellTimed. intros Hx Hy Ho Hlt.
  destruct (itemIsAllDay x) eqn:Ax.
  { destruct (itemIsAllDay y); [| exact I].
    intros H. by rewrite (allDay_is_event x Ax) in H. }
  destruct (itemIsAllDay y) eqn:Ay.
  { inversion Ho; subst. discriminate. }
  destruct Hx as [? | [mx Hx]]; [discriminate |].
  destruct Hy as [? | [my Hy]]; [discriminate |].
  rewrite Hx, Hy. unfold timeOfDay in Hx, Hy.
  destruct (itemTime x) as [tx |]; [| discriminate].
  destruct (itemTime y) as [ty |]; [| discriminate].
  inversion Ho; subst. simpl in Hlt.
  left. by apply (localeCompare_times tx ty).
Qed.

Lemma compareItems_above (x y : AgendaItem) (o : Z) :
  wellTimed x -> wellTimed y -> eventsFirst y x ->
  compareItems x y = Some o -> (o <? 0)%Z = false -> agendaBefore y x.
Proof.
  unfold compareItems, agendaBefore, wellTimed. intros Hx Hy Hpre Ho Hlt.
  destruct (itemIsAllDay x) eqn:Ax.
  { inversion Ho; subst. discriminate. }
  destruct (itemIsAllDay y) eqn:Ay; [exact I |].
  destruct Hx as [? | [mx Hx]]; [discriminate |].
  destruct Hy as [? | [my Hy]]; [discriminate |].
  rewrite Hx, Hy. unfold timeOfDay in Hx, Hy.
  destruct (itemTime x) as [tx |]; [| discriminate].
  destruct (itemTime y) as [ty |]; [| discriminate].
  inversion Ho; subst. simpl in Hlt.
  pose proof (localeCompare_times tx ty mx my Hx Hy) as Hiff.
  destruct (Nat.lt_trichotomy my mx) as [? | [? | Hgt]].
  - by left.
  - by right.
  - apply Hiff in Hgt. congruence.
Qed.

(** The array that is sorted holds the events before the
    appointments. *)
Lemma combined_eventsFirst (es : list Event) (apts : list Appointment) :
  StronglySorted eventsFirst (map EventItem es ++ map toAgendaItem apts).
Proof.
  apply StronglySorted_app. split; [| split].
  - intros x1 x2 H1 _.
    apply list_elem_of_In, in_map_iff in H1 as (e & <- & _). discriminate.
  - induction es as [| e es IH]; simpl; constructor; [assumption |].
    apply List.Forall_forall. intros x _. discriminate.
  - induction apts as [| a apts IH]; simpl; constructor; [assumption |].
    apply List.Forall_forall. intros x Hx.
    apply in_map_iff in Hx as (a' & <- & _). by intros _.
Qed.

Lemma Forall_filter_sub {A : Type} (P Q : A -> Prop)
    `{!forall x, Decision (Q x)} (l : list A) :
  Forall P l -> Forall P (filter Q l).
Proof.
  rewrite !List.Forall_forall. intros HP x Hx.
  apply list_elem_of_In, list_elem_of_filter in Hx as [_ Hx].
  by apply HP, list_elem_of_In.
Qed.

Lemma combined_Forall (P : AgendaItem -> Prop) (es : list Event)
    (apts : list Appointment) (date : string) :
  Forall (fun e => P (EventItem e)) es ->
  Forall (fun a => P (toAgendaItem a)) apts ->
  Forall P
    (map EventItem (filter (fun event => AddEventModal.date event = date) es)
     ++ map toAgendaItem
          (filter (fun apt => aptDate apt = date) (activeAppointments apts))).
Proof.
  intros He Ha. apply Forall_app. split; apply Forall_map.
  - by apply Forall_filter_sub.
  - unfold activeAppointments. by do 2 apply Forall_filter_sub.
Qed.

(** C4: when every entity is saved as the dialogs save it (all day, or
    with a time ["HH:mm"]), the agenda of any date is returned with the
    all-day items first, then in ascending time of day, and on equal
    times the event before the appointment. *)
Theorem agenda_ordered (eventsList : list Event)
    (appointmentsList : list Appointment) (date : string) :
  Forall (fun e => wellTimed (EventItem e)) eventsList ->
  Forall (fun a => wellTimed (toAgendaItem a)) appointmentsList ->
  exists agenda,
    agendaForDate eventsList appointmentsList date = Some agenda
    /\ StronglySorted agendaBefore agenda.
Proof.
  intros He Ha.
  pose proof (combined_Forall wellTimed _ _ date He Ha) as Hwell.
  unfold agendaForDate, updateSelectedDateEvents.
  destruct (sort_returns compareItems
              (fun i => itemIsAllDay i = true \/ is_Some (itemTime i))
              compareItems_returns _
              (Forall_impl _ _ _ Hwell wellTimed_has_time))
    as [agenda Hagenda].
  exists agenda. split; [assumption |].
  apply (sort_sorted compareItems wellTimed agendaBefore eventsFirst
           agendaBefore_trans compareItems_below compareItems_above
           _ agenda Hwell);
    [apply combined_eventsFirst | assumption].
Qed.

(** The all-day event and the appointment at 09:00 on 1 June 2024: the
    event is returned first, then the appointment. *)
Lemma agenda_ordered_witness :
  Forall (fun e => wellTimed (EventItem e)) [juneEvent]
  /\ Forall (fun a => wellTimed (toAgendaItem a)) [juneAppointment]
  /\ (exists agenda,
        agendaForDate [juneEvent] [juneAppointment] "2024-06-01"
        = Some agenda
        /\ StronglySorted agendaBefore agenda)
  /\ agendaForDate [juneEvent] [juneAppointment] "2024-06-01"
     = Some [EventItem juneEvent; toAgendaItem juneAppointment].
Proof.
  assert (Forall (fun e => wellTimed (EventItem e)) [juneEvent]) as He.
  { repeat constructor. }
  assert (Forall (fun a => wellTimed (toAgendaItem a)) [juneAppointment])
    as Ha.
  { constructor; [| constructor]. right. by exists 540. }
  split; [exact He |]. split; [exact Ha |]. split.
  - exact (agenda_ordered [juneEvent] [juneAppointment] "2024-06-01" He Ha).
  - reflexivity.
Defined.

(** The agenda is a permutation of the events of the date followed by
    the active appointments of the date. *)
Lemma agendaForDate_Permutation (eventsList : list Event)
    (appointmentsList : list Appointment) (date : string)
    (agenda : list AgendaItem) :
  agendaForDate eventsList appointmentsList date = Some agenda ->
  Permutation
    (map EventItem
         (filter (fun event => AddEventModal.date event = date) eventsList)
     ++ map toAgendaItem
          (filter (fun apt => aptDate apt = date)
                  (activeAppointments appointmentsList)))
    agenda.
Proof. apply sort_Permutation. Qed.

Lemma agendaForDate_returns (eventsList : list Event)
    (appointmentsList : list Appointment) (date : string) :
  Forall (fun e => isAllDay e = true \/ is_Some (time e)) eventsList ->
  is_Some (agendaForDate eventsList appointmentsList date).
Proof.
  intros He.
  apply (sort_returns compareItems
           (fun i => itemIsAllDay i = true \/ is_Some (itemTime i))
           compareItems_returns).
  apply combined_Forall; [exact He |].
  apply List.Forall_forall. intros a _. right. by eexists.
Qed.

(** C1, as stated, fails: the event that repeats weekly from 1 January
    2024 on is not in the agenda of 15 January 2024, which is empty; and
    the cancelled event of 1 January 2024 is in the agenda of its day. *)
Lemma recurring_event_not_in_later_agenda :
  isRecurring weeklyEvent = true
  /\ recurrencePattern weeklyEvent = Some "weekly"
  /\ agendaForDate [weeklyEvent] [] "2024-01-15" = Some []
  /\ agendaForDate [cancelledEvent] [] "2024-01-01"
     = Some [EventItem cancelledEvent].
Proof. repeat split. Qed.

(** C1, amended: when every event that is not all day has a time, the
    agenda of a date is returned, and, of the entities that are not
    cancelled, it holds exactly those whose own date is the queried
    date, with no recurrence expanded: an event that is not cancelled
    is in it exactly when it is an event of the list dated that day,
    and an appointment is in it exactly when it is an appointment of
    the list dated that day and not cancelled; every item of the
    agenda is dated that day. *)
Theorem agenda_entities_of_date (eventsList : list Event)
    (appointmentsList : list Appointment) (date : string) :
  Forall (fun e => isAllDay e = true \/ is_Some (time e)) eventsList ->
  exists agenda,
    agendaForDate eventsList appointmentsList date = Some agenda
    /\ (forall e, status e <> cancelled ->
          In (EventItem e) agenda
          <-> In e eventsList /\ AddEventModal.date e = date)
    /\ (forall a title,
          In (AppointmentItem a title) agenda
          <-> In a appointmentsList /\ aptDate a = date
              /\ aptStatus a <> "cancelled"
              /\ AppointmentItem a title = toAgendaItem a)
    /\ Forall (fun i => itemDate i = date) agenda.
Proof.
  intros He.
  destruct (agendaForDate_returns eventsList appointmentsList date He)
    as [agenda Hagenda].
  exists agenda. split; [assumption |].
  apply agendaForDate_Permutation in Hagenda.
  split; [| split].
  - intros e _. split.
    + intros H. apply (Permutation_in _ (Permutation_sym Hagenda)) in H.
      apply in_app_iff in H as [H | H];
        apply in_map_iff in H as (x & Hx & H); [| discriminate].
      inversion Hx; subst.
      apply list_elem_of_In, list_elem_of_filter in H as [Hdate H].
      split; [by apply list_elem_of_In | exact Hdate].
    + intros [Hin Hdate]. apply (Permutation_in _ Hagenda).
      apply in_app_iff. left. apply in_map. apply list_elem_of_In.
      apply list_elem_of_filter. split; [assumption |].
      by apply list_elem_of_In.
  - intros a title. split.
    + intros H. apply (Permutation_in _ (Permutation_sym Hagenda)) in H.
      apply in_app_iff in H as [H | H];
        apply in_map_iff in H as (x & Hx & H); [discriminate |].
      apply list_elem_of_In, list_elem_of_filter in H as [Hdate H].
      apply list_elem_of_filter in H as [Hstatus H].
      apply list_elem_of_In in H.
      assert (x = a) as -> by (unfold toAgendaItem in Hx; by inversion Hx).
      by rewrite Hx.
    + intros (Hin & Hdate & Hstatus & Hitem).
      apply (Permutation_in _ Hagenda). apply in_app_iff. right.
      rewrite Hitem. apply in_map. apply list_elem_of_In.
      apply list_elem_of_filter. split; [assumption |].
      apply list_elem_of_filter. split; [assumption |].
      by apply list_elem_of_In.
  - rewrite <- Hagenda. apply Forall_app. split; apply Forall_map.
    + apply List.Forall_forall. intros e H.
      by apply list_elem_of_In, list_elem_of_filter in H as [H _].
    + apply List.Forall_forall. intros a H.
      by apply list_elem_of_In, list_elem_of_filter in H as [H _].
Qed.

(** The weekly event of January, the all-day event of 1 June 2024 and
    the appointment of that day: the agenda of 1 June exists, and it
    holds the event and the appointment of the day. *)
Lemma agenda_entities_of_date_witness :
  Forall (fun e => isAllDay e = true \/ is_Some (time e))
         [weeklyEvent; juneEvent]
  /\ (exists agenda,
        agendaForDate [weeklyEvent; juneEvent] [juneAppointment]
                      "2024-06-01" = Some agenda
        /\ (forall e, status e <> cancelled ->
              In (EventItem e) agenda
              <-> In e [weeklyEvent; juneEvent]
                  /\ AddEventModal.date e = "2024-06-01")
        /\ (forall a title,
              In (AppointmentItem a title) agenda
              <-> In a [juneAppointment] /\ aptDate a = "2024-06-01"
                  /\ aptStatus a <> "cancelled"
                  /\ AppointmentItem a title = toAgendaItem a)
        /\ Forall (fun i => itemDate i = "2024-06-01") agenda)
  /\ agendaForDate [weeklyEvent; juneEvent] [juneAppointment] "2024-06-01"
     = Some [EventItem juneEvent; toAgendaItem juneAppointment].
Proof.
  assert (Forall (fun e => isAllDay e = true \/ is_Some (time e))
                 [weeklyEvent; juneEvent]) as He.
  { constructor; [right; by eexists |].
    constructor; [by left | constructor]. }
  split; [exact He |]. split; [| reflexivity].
  exact (agenda_entities_of_date [weeklyEvent; juneEvent] [juneAppointment]
                                 "2024-06-01" He).
Defined.

(** ** The month markers *)

Lemma addDot_dotsOn (formattedDate d : string) (dot : Dot)
    (marked : gmap string Marking) :
  dotsOn (addDot formattedDate dot marked) d
  = if decide (formattedDate = d) then dotsOn marked d ++ [dot]
    else dotsOn marked d.
Proof.
  unfold dotsOn, addDot.
  case_decide as Hd.
  - subst d. destruct (marked !! formattedDate) as [m |];
      by rewrite lookup_insert_eq.
  - destruct (marked !! formattedDate) as [m |];
      by rewrite lookup_insert_ne.
Qed.

Section Markers.

Variables Colors_light_primary Colors_light_wellness : string.
Variables Colors_light_appointment colors_primary : string.
Variable parseAndFormat : string -> option string.

Lemma markEvents_dotsOn (eventsList : list Event)
    (marked : gmap string Marking) (d : string) :
  dotsOn (fold_left
            (markEvent Colors_light_primary Colors_light_wellness
               parseAndFormat)
            eventsList marked) d
  = dotsOn marked d
    ++ map (eventDot Colors_light_primary Colors_light_wellness)
         (filter (fun event => status event <> cancelled
                               /\ formatDateString parseAndFormat
                                    (date event) = d)
                 eventsList).
Proof.
  revert marked. induction eventsList as [| e es IH]; intros marked; simpl.
  - by rewrite app_nil_r.
  - rewrite IH. unfold markEvent. rewrite filter_cons.
    destruct (decide (status e <> cancelled)) as [Hs | Hs].
    + rewrite addDot_dotsOn.
      destruct (decide (formatDateString parseAndFormat (date e) = d))
        as [Hd | Hd].
      * rewrite decide_True by done. simpl. by rewrite <- app_assoc.
      * rewrite decide_False by tauto. reflexivity.
    + rewrite decide_False by tauto. reflexivity.
Qed.

Lemma markAppointments_dotsOn (appointmentsList : list Appointment)
    (marked : gmap string Marking) (d : string) :
  dotsOn (fold_left
            (markAppointment Colors_light_appointment parseAndFormat)
            appointmentsList marked) d
  = dotsOn marked d
    ++ map (appointmentDot Colors_light_appointment)
         (filter (fun apt => formatDateString parseAndFormat (aptDate apt) = d)
                 appointmentsList).
Proof.
  revert marked.
  induction appointmentsList as [| a apts IH]; intros marked; simpl.
  - by rewrite app_nil_r.
  - rewrite IH. unfold markAppointment. rewrite filter_cons.
    rewrite addDot_dotsOn.
    destruct (decide (formatDateString parseAndFormat (aptDate a) = d))
      as [Hd | Hd].
    + simpl. by rewrite <- app_assoc.
    + reflexivity.
Qed.

(** The dots of every date, the selected one included: one for each
    event that is not cancelled, then one for each appointment. *)
Lemma updateMarkedDates_dotsOn (sel : string) (eventsList : list Event)
    (appointmentsList : list Appointment) (d : string) :
  dotsOn (updateMarkedDates Colors_light_primary Colors_light_wellness
            Colors_light_appointment colors_primary parseAndFormat
            sel eventsList appointmentsList) d
  = map (eventDot Colors_light_primary Colors_light_wellness)
        (filter (fun event => status event <> cancelled
                              /\ formatDateString parseAndFormat
                                   (date event) = d)
                eventsList)
    ++ map (appointmentDot Colors_light_appointment)
         (filter (fun apt => formatDateString parseAndFormat (aptDate apt) = d)
                 appointmentsList).
Proof.
  rewrite <- (app_nil_l (map _ (filter _ eventsList))).
  change (@nil Dot) with (dotsOn (∅ : gmap string Marking) d) at 1.
  rewrite <- markEvents_dotsOn, <- markAppointments_dotsOn.
  unfold updateMarkedDates.
  set (marked :=
         fold_left (markAppointment Colors_light_appointment parseAndFormat)
                   _ _).
  unfold dotsOn.
  destruct (decide (sel = d)) as [-> | Hd].
  - destruct (marked !! d) as [m |]; by rewrite lookup_insert_eq.
  - destruct (marked !! sel) as [m |]; by rewrite lookup_insert_ne.
Qed.

(** The entry of the selected date. *)
Lemma updateMarkedDates_selected (sel : string) (eventsList : list Event)
    (appointmentsList : list Appointment) :
  exists m,
    updateMarkedDates Colors_light_primary Colors_light_wellness
      Colors_light_appointment colors_primary parseAndFormat
      sel eventsList appointmentsList !! sel = Some m
    /\ selected m = Some true
    /\ selectedColor m = Some (colors_primary ++ "80")%string
    /\ selectedTextColor m = Some "#ffffff".
Proof.
  unfold updateMarkedDates.
  set (marked :=
         fold_left (markAppointment Colors_light_appointment parseAndFormat)
                   _ _).
  destruct (marked !! sel) as [m |]; rewrite lookup_insert_eq;
    eexists; repeat split.
Qed.

Lemma filter_none {A : Type} (P : A -> Prop) `{!forall x, Decision (P x)}
    (l : list A) :
  Forall (fun x => ~ P x) l -> filter P l = [].
Proof.
  induction 1 as [| x l Hx Hl IH]; [reflexivity |].
  rewrite filter_cons. by rewrite decide_False.
Qed.

(** The colour computed for an event is the colour the rule names. *)
Lemma eventColor_rule (event : Event) :
  eventColor Colors_light_primary Colors_light_wellness event
  = ownOrCategoryColor Colors_light_primary Colors_light_wellness event.
Proof.
  unfold eventColor, ownOrCategoryColor, JSString.or, EVENT_COLORS.
  destruct (color event) as [[| c s] |], (category event); simpl;
    try reflexivity;
    destruct Colors_light_primary, Colors_light_wellness; reflexivity.
Qed.

(** C7, amended: from the list of events and the list of appointments
    it is given, [updateMarkedDates] puts on every date one dot for
    each event of the list that is not cancelled and whose (formatted)
    date it is, in the order of the list, followed by one dot for each
    appointment of the list whose date it is; with the list the
    appointments listener passes, which has no cancelled appointment,
    this is one dot for each appointment that is not cancelled.  The
    dot of an event has the event's own colour, or else the colour of
    its category; the dot of every appointment has the one appointment
    colour of the palette. *)
Theorem markers_one_dot_per_entity (sel : string)
    (eventsList : list Event) (appointmentsList : list Appointment)
    (d : string) :
  dotsOn (updateMarkedDates Colors_light_primary Colors_light_wellness
            Colors_light_appointment colors_primary parseAndFormat
            sel eventsList appointmentsList) d
  = map (fun event =>
           mkDot (id event)
                 (ownOrCategoryColor Colors_light_primary
                    Colors_light_wellness event))
        (filter (fun event => status event <> cancelled
                              /\ formatDateString parseAndFormat
                                   (date event) = d)
                eventsList)
    ++ map (fun apt => mkDot (Some (aptId apt)) Colors_light_appointment)
         (filter (fun apt => formatDateString parseAndFormat (aptDate apt)
                             = d)
                 appointmentsList)
  /\ dotsOn (updateMarkedDates Colors_light_primary Colors_light_wellness
               Colors_light_appointment colors_primary parseAndFormat
               sel eventsList (activeAppointments appointmentsList)) d
     = map (fun event =>
              mkDot (id event)
                    (ownOrCategoryColor Colors_light_primary
                       Colors_light_wellness event))
           (filter (fun event => status event <> cancelled
                                 /\ formatDateString parseAndFormat
                                      (date event) = d)
                   eventsList)
       ++ map (fun apt => mkDot (Some (aptId apt)) Colors_light_appointment)
            (filter (fun apt => formatDateString parseAndFormat
                                  (aptDate apt) = d
                                /\ aptStatus apt <> "cancelled")
                    appointmentsList).
Proof.
  assert (forall l : list Event,
            map (eventDot Colors_light_primary Colors_light_wellness) l
            = map (fun event =>
                     mkDot (id event)
                           (ownOrCategoryColor Colors_light_primary
                              Colors_light_wellness event)) l) as Hcolor.
  { intros l. apply map_ext. intros event. unfold eventDot.
    by rewrite eventColor_rule. }
  rewrite !updateMarkedDates_dotsOn, Hcolor.
  split; [reflexivity |].
  unfold activeAppointments. by rewrite list_filter_filter.
Qed.

(** Whatever the two lists it is given, the map [updateMarkedDates]
    computes has an entry for the [selected] it reads, marked as
    selected with the two selection colours; its dots are the dots of
    the entities of that date, and when no event that is not cancelled
    and no appointment falls on the date, the list of dots is there
    and empty. *)
Theorem selected_date_always_marked (sel : string)
    (eventsList : list Event) (appointmentsList : list Appointment) :
  exists m,
    updateMarkedDates Colors_light_primary Colors_light_wellness
      Colors_light_appointment colors_primary parseAndFormat
      sel eventsList appointmentsList !! sel = Some m
    /\ selected m = Some true
    /\ selectedColor m = Some (colors_primary ++ "80")%string
    /\ selectedTextColor m = Some "#ffffff"
    /\ dots m
       = map (eventDot Colors_light_primary Colors_light_wellness)
             (filter (fun event => status event <> cancelled
                                   /\ formatDateString parseAndFormat
                                        (date event) = sel)
                     eventsList)
         ++ map (appointmentDot Colors_light_appointment)
              (filter (fun apt => formatDateString parseAndFormat
                                    (aptDate apt) = sel)
                      appointmentsList)
    /\ (Forall (fun event => ~ (status event <> cancelled
                                /\ formatDateString parseAndFormat
                                     (date event) = sel))
               eventsList ->
        Forall (fun apt => formatDateString parseAndFormat (aptDate apt)
                           <> sel)
               appointmentsList ->
        dots m = []).
Proof.
  destruct (updateMarkedDates_selected sel eventsList appointmentsList)
    as (m & Hm & Hsel & Hcolor & Htext).
  pose proof (updateMarkedDates_dotsOn sel eventsList appointmentsList sel)
    as Hdots.
  unfold dotsOn in Hdots. rewrite Hm in Hdots.
  exists m. repeat split; try assumption.
  intros He Ha. rewrite Hdots.
  by rewrite (filter_none _ _ He), (filter_none _ _ Ha).
Qed.

End Markers.

(** C7, as stated, fails: the appointment of 1 June 2024 has a colour
    of its own, yet its marker is in the appointment colour of the
    palette. *)
Lemma appointment_marker_not_own_color :
  aptColor juneAppointment = Some "#FF0000"
  /\ dotsOn (updateMarkedDates "#007AFF" "#34C759" "#5856D6" "#0A84FF"
               (fun _ => None) "2024-06-02" []
               (activeAppointments [juneAppointment]))
            "2024-06-01"
     = [mkDot (Some "a1") "#5856D6"].
Proof. split; [reflexivity | vm_compute; reflexivity]. Qed.

(** ** More on the slot generators *)

Lemma flat_map_ext_on {A B : Type} (f g : A -> list B) (l : list A) :
  (forall x, In x l -> f x = g x) -> flat_map f l = flat_map g l.
Proof.
  induction l as [| x l IH]; intros H; simpl; [reflexivity |].
  rewrite IH by (intros; apply H; by right).
  by rewrite H by (by left).
Qed.

(** The loop depends on the skip condition only at the hours it
    visits. *)
Lemma slotLoop_ext (skip1 skip2 : nat -> nat -> bool) (selectedDate : Date)
    (startHour endHour : nat) :
  (forall hour minute,
     startHour <= hour < endHour -> skip1 hour minute = skip2 hour minute) ->
  slotLoop skip1 selectedDate startHour endHour
  = slotLoop skip2 selectedDate startHour endHour.
Proof.
  intros H. unfold slotLoop. apply flat_map_ext_on. intros hour Hhour.
  apply in_seq in Hhour. simpl.
  rewrite !(H hour) by lia. reflexivity.
Qed.

(** On the clock's own day the loop starts at the clock's hour or
    later. *)
Lemma slotStartHour_today (now selectedDate : Date) :
  isToday now selectedDate = true ->
  JSDate.getHours now <= slotStartHour now selectedDate.
Proof.
  intros H. unfold slotStartHour. rewrite H.
  destruct (Nat.leb_spec 9 (JSDate.getHours now)); [| lia].
  destruct (30 <=? JSDate.getMinutes now); lia.
Qed.

(** The generator of the appointment scheduler and the generator of
    the event dialog return the same slots, whatever the clock and the
    selected date: the one condition the first has more, an hour before
    the clock's hour, never holds inside the loop. *)
Theorem generators_agree (now selectedDate : Date) :
  AppointmentScheduler.generateTimeSlots now selectedDate
  = AddEventModal.generateTimeSlots now selectedDate.
Proof.
  unfold AppointmentScheduler.generateTimeSlots,
    AddEventModal.generateTimeSlots.
  apply slotLoop_ext. intros hour minute Hhour.
  destruct (isToday now selectedDate) eqn:Htoday; [| reflexivity].
  pose proof (slotStartHour_today now selectedDate Htoday).
  replace (hour <? JSDate.getHours now) with false
    by (symmetry; apply Nat.ltb_ge; lia).
  by rewrite orb_false_r, !andb_assoc.
Qed.


(** On the clock's own day no slot lies in an hour before the clock's
    hour, and once the clock is at the half hour or past it, no slot
    lies in the clock's hour either. *)
Theorem today_slots_not_before_clock_hour (now selectedDate : Date) :
  isToday now selectedDate = true ->
  Forall (fun s => JSDate.getHours now <= JSDate.getHours s
                   /\ (9 <= JSDate.getHours now ->
                       30 <= JSDate.getMinutes now ->
                       JSDate.getHours now < JSDate.getHours s))
         (AppointmentScheduler.generateTimeSlots now selectedDate).
Proof.
  intros Htoday. apply List.Forall_forall. intros s Hs.
  unfold AppointmentScheduler.generateTimeSlots in Hs.
  apply slotLoop_elem in Hs as [Hh _].
  pose proof (slotStartHour_today now selectedDate Htoday).
  split; [lia |]. intros H9 H30.
  unfold slotStartHour in Hh. rewrite Htoday in Hh.
  apply Nat.leb_le in H9, H30. rewrite H9, H30 in Hh. lia.
Qed.

Lemma today_slots_not_before_clock_hour_witness :
  isToday (JSDate.mk 2024 5 3 10 45 0 0) (JSDate.mk 2024 5 3 12 0 0 0) = true
  /\ Forall (fun s => 10 <= JSDate.getHours s
                      /\ (9 <= 10 -> 30 <= 45 -> 10 < JSDate.getHours s))
            (AppointmentScheduler.generateTimeSlots
               (JSDate.mk 2024 5 3 10 45 0 0) (JSDate.mk 2024 5 3 12 0 0 0)).
Proof.
  split; [reflexivity |].
  apply (today_slots_not_before_clock_hour
           (JSDate.mk 2024 5 3 10 45 0 0) (JSDate.mk 2024 5 3 12 0 0 0)).
  reflexivity.
Defined.

(** On the clock's own day, from 16:30 on, no slot is left. *)
Theorem today_late_no_slots (now selectedDate : Date) :
  isToday now selectedDate = true ->
  JSDate.getMinutes now < 60 ->
  16 * 60 + 30 <= JSDate.minuteOfDay now ->
  AppointmentScheduler.generateTimeSlots now selectedDate = []
  /\ AddEventModal.generateTimeSlots now selectedDate = [].
Proof.
  intros Htoday Hmin Hlate.
  assert (17 <= slotStartHour now selectedDate) as Hstart.
  { unfold slotStartHour. rewrite Htoday.
    unfold JSDate.minuteOfDay in Hlate.
    destruct (Nat.leb_spec 9 (JSDate.getHours now)); [| lia].
    destruct (Nat.leb_spec 30 (JSDate.getMinutes now)); lia. }
  unfold AppointmentScheduler.generateTimeSlots,
    AddEventModal.generateTimeSlots, slotLoop.
  by replace (17 - slotStartHour now selectedDate) with 0 by lia.
Qed.

Lemma today_late_no_slots_witness :
  isToday (JSDate.mk 2024 5 3 16 30 0 0) (JSDate.mk 2024 5 3 12 0 0 0) = true
  /\ AppointmentScheduler.generateTimeSlots
       (JSDate.mk 2024 5 3 16 30 0 0) (JSDate.mk 2024 5 3 12 0 0 0) = []
  /\ AddEventModal.generateTimeSlots
       (JSDate.mk 2024 5 3 16 30 0 0) (JSDate.mk 2024 5 3 12 0 0 0) = [].
Proof.
  split; [reflexivity |].
  apply (today_late_no_slots (JSDate.mk 2024 5 3 16 30 0 0)
                             (JSDate.mk 2024 5 3 12 0 0 0));
    [reflexivity | simpl; lia | vm_compute; lia].
Defined.

(** A slot the loop visits and does not skip is returned. *)
Lemma slotLoop_In (skip : nat -> nat -> bool) (selectedDate : Date)
    (startHour endHour hour minute : nat) :
  startHour <= hour < endHour -> minute = 0 \/ minute = 30 ->
  skip hour minute = false ->
  In (JSDate.setHours selectedDate hour minute 0 0)
     (slotLoop skip selectedDate startHour endHour).
Proof.
  intros Hhour Hminute Hskip. unfold slotLoop.
  apply in_flat_map. exists hour. split; [apply in_seq; lia |].
  simpl. rewrite app_nil_r. apply in_app_iff.
  destruct Hminute as [-> | ->]; [left | right]; rewrite Hskip; by left.
Qed.

(** On the clock's own day, both half hours of every hour from 10 to
    16 that is two hours or more after the clock's hour are offered. *)
Theorem today_later_hours_offered (now selectedDate : Date) (hour : nat) :
  isToday now selectedDate = true ->
  10 <= hour <= 16 ->
  JSDate.getHours now + 2 <= hour ->
  In (hour, 0)
     (slotTimes (AppointmentScheduler.generateTimeSlots now selectedDate))
  /\ In (hour, 30)
        (slotTimes (AppointmentScheduler.generateTimeSlots now selectedDate)).
Proof.
  intros Htoday Hhour Hlater.
  assert (slotStartHour now selectedDate < hour) as Hstart.
  { unfold slotStartHour. rewrite Htoday.
    destruct (9 <=? JSDate.getHours now); [| lia].
    destruct (30 <=? JSDate.getMinutes now); lia. }
  assert (forall minute, minute = 0 \/ minute = 30 ->
            In (hour, minute)
               (slotTimes (AppointmentScheduler.generateTimeSlots
                             now selectedDate))) as H.
  { intros minute Hminute. unfold slotTimes.
    apply in_map_iff.
    exists (JSDate.setHours selectedDate hour minute 0 0).
    split; [reflexivity |].
    apply slotLoop_In; [lia | assumption |].
    rewrite Htoday.
    replace (hour =? slotStartHour now selectedDate) with false
      by (symmetry; apply Nat.eqb_neq; lia).
    replace (hour <? JSDate.getHours now) with false
      by (symmetry; apply Nat.ltb_ge; lia).
    reflexivity. }
  split; apply H; auto.
Qed.

Lemma today_later_hours_offered_witness :
  isToday (JSDate.mk 2024 5 3 10 45 0 0) (JSDate.mk 2024 5 3 12 0 0 0) = true
  /\ In (12, 0)
        (slotTimes (AppointmentScheduler.generateTimeSlots
                      (JSDate.mk 2024 5 3 10 45 0 0)
                      (JSDate.mk 2024 5 3 12 0 0 0)))
  /\ In (12, 30)
        (slotTimes (AppointmentScheduler.generateTimeSlots
                      (JSDate.mk 2024 5 3 10 45 0 0)
                      (JSDate.mk 2024 5 3 12 0 0 0))).
Proof.
  split; [reflexivity |].
  apply (today_later_hours_offered (JSDate.mk 2024 5 3 10 45 0 0)
                                   (JSDate.mk 2024 5 3 12 0 0 0) 12);
    [reflexivity | lia | simpl; lia].
Defined.

(** On a day on which no local time is skipped by a change of the
    clocks, the fallback picker returns the 48 half hours of the day of
    its date, from 00:00 to 23:30 in increasing order, and among them
    is every slot the scheduler offers for that date. *)
Theorem picker_all_half_hours (zone : JSDate.Zone) (tempDate : Date) :
  (forall hour minute,
     hour < 24 -> minute = 0 \/ minute = 30 ->
     zone tempDate hour minute = (hour, minute)) ->
  slotTimes (DatePickerFallback.generateTimeSlots zone tempDate)
  = flat_map (fun hour => [(hour, 0); (hour, 30)]) (seq 0 24)
  /\ length (DatePickerFallback.generateTimeSlots zone tempDate) = 48
  /\ StronglySorted lt
       (map JSDate.minuteOfDay
            (DatePickerFallback.generateTimeSlots zone tempDate))
  /\ forall now,
       incl (slotTimes
               (AppointmentScheduler.generateTimeSlots now tempDate))
            (slotTimes (DatePickerFallback.generateTimeSlots zone tempDate)).
Proof.
  intros Hzone.
  assert (DatePickerFallback.generateTimeSlots zone tempDate
          = slotLoop (fun _ _ => false) tempDate 0 24) as ->.
  { unfold DatePickerFallback.generateTimeSlots, slotLoop.
    apply flat_map_ext_on. intros hour Hhour. apply in_seq in Hhour.
    simpl. unfold JSDate.setHoursIn.
    rewrite !Hzone by (auto; lia). reflexivity. }
  split; [reflexivity |]. split; [reflexivity |].
  split; [apply slotLoop_sorted |].
  intros now p Hp. unfold slotTimes in Hp.
  apply in_map_iff in Hp as (s & <- & Hs).
  unfold AppointmentScheduler.generateTimeSlots in Hs.
  apply slotLoop_elem in Hs as [Hh Hm].
  change (slotTimes (slotLoop (fun _ _ => false) tempDate 0 24))
    with (flat_map (fun hour => [(hour, 0); (hour, 30)]) (seq 0 24)).
  apply in_flat_map. exists (JSDate.getHours s).
  split; [apply in_seq; lia |].
  destruct Hm as [-> | ->]; [by left | right; by left].
Qed.

(** A zone whose clocks never change. *)
Lemma picker_all_half_hours_witness :
  slotTimes (DatePickerFallback.generateTimeSlots JSDate.fixedZone juneNoon)
  = flat_map (fun hour => [(hour, 0); (hour, 30)]) (seq 0 24)
  /\ length (DatePickerFallback.generateTimeSlots JSDate.fixedZone juneNoon)
     = 48
  /\ StronglySorted lt
       (map JSDate.minuteOfDay
            (DatePickerFallback.generateTimeSlots JSDate.fixedZone
               juneNoon))
  /\ forall now,
       incl (slotTimes
               (AppointmentScheduler.generateTimeSlots now juneNoon))
            (slotTimes
               (DatePickerFallback.generateTimeSlots JSDate.fixedZone
                  juneNoon)).
Proof.
  apply (picker_all_half_hours JSDate.fixedZone juneNoon).
  intros hour minute _ _. reflexivity.
Defined.

(** ** More on the validators *)

(** Before the start of the clock's day is on an earlier day. *)
Lemma isBefore_startOfDay (d now : Date) :
  JSDate.isBefore d (JSDate.startOfDay now) = JSDate.dayBefore d now.
Proof.
  unfold JSDate.isBefore.
  change (JSDate.dayBefore d (JSDate.startOfDay now))
    with (JSDate.dayBefore d now).
  change (JSDate.msOfDay (JSDate.startOfDay now)) with 0%N.
  replace (JSDate.msOfDay d <? 0)%N with false
    by (symmetry; apply N.ltb_ge; lia).
  by rewrite andb_false_r, orb_false_r.
Qed.

(** The date condition of the appointment validator and the one of the
    event validator both say: on an earlier day than the clock's. *)
Lemma past_date_condition (now d : Date) :
  JSDate.isBefore d (JSDate.startOfDay now) && negb (isToday now d)
  = JSDate.dayBefore d now
  /\ JSDate.isBefore d now && negb (isToday now d) = JSDate.dayBefore d now.
Proof.
  rewrite isBefore_startOfDay. unfold JSDate.isBefore, isToday.
  destruct (JSDate.dayBefore d now) eqn:Hday.
  - rewrite (dayBefore_not_sameDay _ _ Hday). by split.
  - simpl. split; [reflexivity |].
    destruct (JSDate.sameDay d now); simpl;
      [apply andb_false_r | reflexivity].
Qed.

Lemma validateInputs_date (now : Date) (f : AppointmentScheduler.Form) :
  AppointmentScheduler.validateInputs now f !! "date"
  = AppointmentScheduler.dateError now f.
Proof.
  unfold AppointmentScheduler.validateInputs.
  rewrite !report_lookup. simpl.
  repeat (case_decide; try discriminate).
  by destruct (AppointmentScheduler.dateError now f).
Qed.

Lemma validateForm_date (now : Date) (f : AddEventModal.Form) :
  AddEventModal.validateForm now f !! "date"
  = AddEventModal.dateError now f.
Proof.
  unfold AddEventModal.validateForm.
  rewrite !report_lookup. simpl.
  repeat (case_decide; try discriminate).
  by destruct (AddEventModal.dateError now f).
Qed.

Lemma validateInputs_duration (now : Date) (f : AppointmentScheduler.Form) :
  AppointmentScheduler.validateInputs now f !! "duration"
  = AppointmentScheduler.durationError f.
Proof.
  unfold AppointmentScheduler.validateInputs.
  rewrite !report_lookup. simpl.
  repeat (case_decide; try discriminate).
  by destruct (AppointmentScheduler.durationError f).
Qed.

(** On a valid date the two validators report the same thing under
    [date]: an error exactly when the date is on an earlier calendar
    day than the clock's, whatever the times of day; a date of today
    is never rejected. *)
Theorem validators_reject_earlier_days (now d : Date)
    (appointment : AppointmentScheduler.Form) (event : AddEventModal.Form) :
  AppointmentScheduler.date appointment = ValidDate d ->
  AddEventModal.formDate event = ValidDate d ->
  AppointmentScheduler.validateInputs now appointment !! "date"
  = (if JSDate.dayBefore d now then Some "Date cannot be in the past"
     else None)
  /\ AddEventModal.validateForm now event !! "date"
     = (if JSDate.dayBefore d now then Some "Date cannot be in the past"
        else None)
  /\ (isToday now d = true ->
      AppointmentScheduler.validateInputs now appointment !! "date" = None).
Proof.
  intros Ha He.
  rewrite validateInputs_date, validateForm_date.
  unfold AppointmentScheduler.dateError, AddEventModal.dateError.
  rewrite Ha, He.
  destruct (past_date_condition now d) as [-> ->].
  repeat split. intros Htoday.
  destruct (JSDate.dayBefore d now) eqn:Hday; [| reflexivity].
  apply dayBefore_not_sameDay in Hday. unfold isToday in Htoday. congruence.
Qed.

Lemma validators_reject_earlier_days_witness :
  AppointmentScheduler.validateInputs (JSDate.mk 2024 5 3 9 15 0 0)
    (AppointmentScheduler.mkForm "Grey" "Cardiology" "Clinic"
       (ValidDate (JSDate.mk 2024 5 2 23 0 0 0))
       (ValidDate (JSDate.mk 2024 5 2 10 0 0 0)) None true false None
       NoDate 30) !! "date"
  = Some "Date cannot be in the past"
  /\ AddEventModal.validateForm (JSDate.mk 2024 5 3 9 15 0 0)
       (AddEventModal.mkForm "Lunch" "Cafe"
          (ValidDate (JSDate.mk 2024 5 2 23 0 0 0))
          (ValidDate (JSDate.mk 2024 5 2 10 0 0 0)) false false None)
     !! "date"
     = Some "Date cannot be in the past"
  /\ (isToday (JSDate.mk 2024 5 3 9 15 0 0) (JSDate.mk 2024 5 2 23 0 0 0)
      = true ->
      AppointmentScheduler.validateInputs (JSDate.mk 2024 5 3 9 15 0 0)
        (AppointmentScheduler.mkForm "Grey" "Cardiology" "Clinic"
           (ValidDate (JSDate.mk 2024 5 2 23 0 0 0))
           (ValidDate (JSDate.mk 2024 5 2 10 0 0 0)) None true false None
           NoDate 30) !! "date"
      = None).
Proof.
  exact (validators_reject_earlier_days
           (JSDate.mk 2024 5 3 9 15 0 0) (JSDate.mk 2024 5 2 23 0 0 0)
           (AppointmentScheduler.mkForm "Grey" "Cardiology" "Clinic"
              (ValidDate (JSDate.mk 2024 5 2 23 0 0 0))
              (ValidDate (JSDate.mk 2024 5 2 10 0 0 0)) None true false None
              NoDate 30)
           (AddEventModal.mkForm "Lunch" "Cafe"
              (ValidDate (JSDate.mk 2024 5 2 23 0 0 0))
              (ValidDate (JSDate.mk 2024 5 2 10 0 0 0)) false false None)
           eq_refl eq_refl).
Defined.

(** The appointment validator reports nothing under [duration]
    exactly for a duration from 15 to 240 minutes; zero is reported as
    missing, every other number below 15, the negative ones included,
    as too short, and more than 240 as too long. *)
Theorem duration_accepted_from_15_to_240 (now : Date)
    (f : AppointmentScheduler.Form) :
  (AppointmentScheduler.validateInputs now f !! "duration" = None
   <-> (15 <= AppointmentScheduler.duration f <= 240)%Z)
  /\ (AppointmentScheduler.validateInputs now f !! "duration"
      = Some "Duration is required"
      <-> AppointmentScheduler.duration f = 0%Z)
  /\ (AppointmentScheduler.validateInputs now f !! "duration"
      = Some "Duration must be at least 15 minutes"
      <-> (AppointmentScheduler.duration f < 15)%Z
          /\ AppointmentScheduler.duration f <> 0%Z)
  /\ (AppointmentScheduler.validateInputs now f !! "duration"
      = Some "Duration cannot exceed 4 hours"
      <-> (240 < AppointmentScheduler.duration f)%Z).
Proof.
  rewrite validateInputs_duration. unfold AppointmentScheduler.durationError.
  destruct (Z.eqb_spec (AppointmentScheduler.duration f) 0);
    [| destruct (Z.ltb_spec (AppointmentScheduler.duration f) 15);
       [| destruct (Z.ltb_spec 240 (AppointmentScheduler.duration f))]];
    repeat split; intros; try discriminate; try lia; try reflexivity.
Qed.

(** 8:00 of the clock's day, with the clock at noon. *)
Lemma validateInputs_today_time_witness :
  is_Some
    (AppointmentScheduler.validateInputs (JSDate.mk 2024 5 3 12 0 0 0)
       (AppointmentScheduler.mkForm "Grey" "Cardiology" "Clinic"
          (ValidDate (JSDate.mk 2024 5 3 12 0 0 0))
          (ValidDate (JSDate.mk 2024 5 3 8 0 0 0))
          (Some (JSDate.mk 2024 5 3 8 0 0 0)) false false None NoDate 30)
     !! "time")
  <-> JSDate.isBefore
        (JSDate.setHoursMinutes (JSDate.mk 2024 5 3 12 0 0 0) 8 0)
        (JSDate.mk 2024 5 3 12 0 0 0) = true.
Proof.
  apply (validateInputs_today_time
           (JSDate.mk 2024 5 3 12 0 0 0) (JSDate.mk 2024 5 3 12 0 0 0)
           (JSDate.mk 2024 5 3 8 0 0 0)
           (AppointmentScheduler.mkForm "Grey" "Cardiology" "Clinic"
              (ValidDate (JSDate.mk 2024 5 3 12 0 0 0))
              (ValidDate (JSDate.mk 2024 5 3 8 0 0 0))
              (Some (JSDate.mk 2024 5 3 8 0 0 0)) false false None
              NoDate 30));
    [reflexivity | reflexivity | left; by eexists | reflexivity].
Defined.

(** The object of errors is empty exactly when the rule reported
    nothing and the object was empty before. *)
Lemma report_empty (key : string) (e : option string)
    (newErrors : gmap string string) :
  AppointmentScheduler.report key e newErrors = ∅
  <-> e = None /\ newErrors = ∅.
Proof.
  unfold AppointmentScheduler.report. destruct e as [message |].
  - split; [| by intros []]. intros H. by apply insert_non_empty in H.
  - by split; [| intros []].
Qed.

Lemma if_Some_None (b : bool) (message : string) :
  (if b then Some message else None) = None <-> b = false.
Proof. by destruct b. Qed.

Lemma validateForm_empty (now : Date) (f : AddEventModal.Form) :
  AddEventModal.validateForm now f = ∅
  <-> JSString.isBlank (AddEventModal.formTitle f) = false
      /\ JSString.isBlank (AddEventModal.formLocation f) = false
      /\ AddEventModal.dateError now f = None
      /\ AddEventModal.timeError f = None
      /\ AddEventModal.recurrenceError f = None.
Proof.
  unfold AddEventModal.validateForm. rewrite !report_empty, !if_Some_None.
  tauto.
Qed.

Lemma event_dateError_None (now : Date) (f : AddEventModal.Form) :
  AddEventModal.dateError now f = None
  <-> exists d, AddEventModal.formDate f = ValidDate d
                /\ JSDate.dayBefore d now = false.
Proof.
  unfold AddEventModal.dateError.
  destruct (AddEventModal.formDate f) as [| | d].
  - split; [discriminate | by intros (d & H & _)].
  - split; [discriminate | by intros (d & H & _)].
  - destruct (past_date_condition now d) as [_ ->]. rewrite if_Some_None.
    split; [by exists d | by intros (d' & [= <-] & H)].
Qed.

Lemma event_timeError_None (f : AddEventModal.Form) :
  AddEventModal.timeError f = None
  <-> (AddEventModal.formIsAllDay f = false ->
       exists t, AddEventModal.formTime f = ValidDate t).
Proof.
  unfold AddEventModal.timeError.
  destruct (AddEventModal.formIsAllDay f); simpl; [by split |].
  destruct (AddEventModal.formTime f) as [| | t].
  - split; [discriminate | intros H; by destruct (H eq_refl)].
  - split; [discriminate | intros H; by destruct (H eq_refl)].
  - split; [by exists t | reflexivity].
Qed.

Lemma event_recurrenceError_None (f : AddEventModal.Form) :
  AddEventModal.recurrenceError f = None
  <-> (AddEventModal.formIsRecurring f = true ->
       JSString.truthy (AddEventModal.formRecurrencePattern f) = true).
Proof.
  unfold AddEventModal.recurrenceError. rewrite if_Some_None.
  destruct (AddEventModal.formIsRecurring f),
    (JSString.truthy (AddEventModal.formRecurrencePattern f)); simpl;
    split; try done. intros H. by specialize (H eq_refl).
Qed.

(** The event validator returns no error exactly for a form with a
    title and a location that are not blank, a valid date that is not
    on an earlier day than the clock's, a valid time unless the event
    is all day, and a recurrence pattern when the event repeats. *)
Theorem event_form_accepted (now : Date) (f : AddEventModal.Form) :
  AddEventModal.validateForm now f = ∅
  <-> JSString.isBlank (AddEventModal.formTitle f) = false
      /\ JSString.isBlank (AddEventModal.formLocation f) = false
      /\ (exists d, AddEventModal.formDate f = ValidDate d
                    /\ JSDate.dayBefore d now = false)
      /\ (AddEventModal.formIsAllDay f = false ->
          exists t, AddEventModal.formTime f = ValidDate t)
      /\ (AddEventModal.formIsRecurring f = true ->
          JSString.truthy (AddEventModal.formRecurrencePattern f) = true).
Proof.
  rewrite validateForm_empty, event_dateError_None, event_timeError_None,
    event_recurrenceError_None.
  reflexivity.
Qed.

Lemma validateInputs_empty (now : Date) (f : AppointmentScheduler.Form) :
  AppointmentScheduler.validateInputs now f = ∅
  <-> JSString.isBlank (AppointmentScheduler.doctorName f) = false
      /\ JSString.isBlank (AppointmentScheduler.specialty f) = false
      /\ JSString.isBlank (AppointmentScheduler.location f) = false
      /\ AppointmentScheduler.dateError now f = None
      /\ AppointmentScheduler.timeError now f = None
      /\ AppointmentScheduler.recurrenceError f = None
      /\ AppointmentScheduler.durationError f = None.
Proof.
  unfold AppointmentScheduler.validateInputs.
  rewrite !report_empty, !if_Some_None. tauto.
Qed.

Lemma appointment_dateError_None (now : Date)
    (f : AppointmentScheduler.Form) :
  AppointmentScheduler.dateError now f = None
  <-> exists d, AppointmentScheduler.date f = ValidDate d
                /\ JSDate.dayBefore d now = false.
Proof.
  unfold AppointmentScheduler.dateError.
  destruct (AppointmentScheduler.date f) as [| | d].
  - split; [discriminate | by intros (d & H & _)].
  - split; [discriminate | by intros (d & H & _)].
  - destruct (past_date_condition now d) as [-> _]. rewrite if_Some_None.
    split; [by exists d | by intros (d' & [= <-] & H)].
Qed.

Lemma appointment_timeError_None (now d : Date)
    (f : AppointmentScheduler.Form) :
  AppointmentScheduler.date f = ValidDate d ->
  AppointmentScheduler.timeError now f = None
  <-> exists t,
        AppointmentScheduler.time f = ValidDate t
        /\ (is_Some (AppointmentScheduler.selectedTimeSlot f)
            \/ AppointmentScheduler.showManualTimeInput f = true)
        /\ (isToday now d = true ->
            JSDate.isBefore
              (JSDate.setHoursMinutes d (JSDate.getHours t)
                 (JSDate.getMinutes t)) now = false).
Proof.
  intros Hd. unfold AppointmentScheduler.timeError. rewrite Hd.
  destruct (AppointmentScheduler.time f) as [| | t].
  - split; [discriminate | by intros (t & H & _)].
  - split; [discriminate | by intros (t & H & _)].
  - destruct (AppointmentScheduler.selectedTimeSlot f) as [slot |]; simpl.
    + rewrite if_Some_None. split.
      * intros H. exists t. split; [reflexivity |].
        split; [left; by eexists |]. intros Htoday. by rewrite Htoday in H.
      * intros (t' & [= <-] & _ & H).
        destruct (isToday now d); [by rewrite H | reflexivity].
    + destruct (AppointmentScheduler.showManualTimeInput f); simpl.
      * rewrite if_Some_None. split.
        -- intros H. exists t. split; [reflexivity |].
           split; [by right |]. intros Htoday. by rewrite Htoday in H.
        -- intros (t' & [= <-] & _ & H).
           destruct (isToday now d); [by rewrite H | reflexivity].
      * split; [discriminate |].
        intros (t' & _ & [[slot H] | H] & _); discriminate.
Qed.

Lemma appointment_recurrenceError_None (d : Date)
    (f : AppointmentScheduler.Form) :
  AppointmentScheduler.date f = ValidDate d ->
  AppointmentScheduler.recurrenceError f = None
  <-> (AppointmentScheduler.isRecurring f = true ->
       is_Some (AppointmentScheduler.recurrencePattern f)
       /\ AppointmentScheduler.recurrenceEnd f <> InvalidDate
       /\ forall e, AppointmentScheduler.recurrenceEnd f = ValidDate e ->
                    JSDate.isBefore e d = false).
Proof.
  intros Hd. unfold AppointmentScheduler.recurrenceError. rewrite Hd.
  destruct (AppointmentScheduler.isRecurring f); [| by split].
  destruct (AppointmentScheduler.recurrencePattern f) as [pattern |].
  - destruct (AppointmentScheduler.recurrenceEnd f) as [| | e].
    + split; [| reflexivity]. intros _ _.
      split; [by eexists |]. split; [discriminate | discriminate].
    + split; [discriminate |]. intros H.
      by destruct (H eq_refl) as (_ & H' & _).
    + rewrite if_Some_None. split.
      * intros H _. split; [by eexists |]. split; [discriminate |].
        by intros e' [= <-].
      * intros H. destruct (H eq_refl) as (_ & _ & H'). by apply H'.
  - split; [discriminate |]. intros H.
    destruct (H eq_refl) as ([pattern H'] & _). discriminate.
Qed.

Lemma durationError_None (f : AppointmentScheduler.Form) :
  AppointmentScheduler.durationError f = None
  <-> (15 <= AppointmentScheduler.duration f <= 240)%Z.
Proof.
  unfold AppointmentScheduler.durationError.
  destruct (Z.eqb_spec (AppointmentScheduler.duration f) 0);
    [| destruct (Z.ltb_spec (AppointmentScheduler.duration f) 15);
       [| destruct (Z.ltb_spec 240 (AppointmentScheduler.duration f))]];
    split; intros; try discriminate; try lia; reflexivity.
Qed.

(** The appointment validator returns no error exactly for a form with
    the three names not blank, a valid date that is not on an earlier
    day than the clock's, a valid time with a slot selected or manual
    input on, that time not before the clock when the date is today, a
    recurrence pattern and no end before the date when the appointment
    repeats, and a duration from 15 to 240 minutes. *)
Theorem appointment_form_accepted (now : Date)
    (f : AppointmentScheduler.Form) :
  AppointmentScheduler.validateInputs now f = ∅
  <-> JSString.isBlank (AppointmentScheduler.doctorName f) = false
      /\ JSString.isBlank (AppointmentScheduler.specialty f) = false
      /\ JSString.isBlank (AppointmentScheduler.location f) = false
      /\ (exists d t,
            AppointmentScheduler.date f = ValidDate d
            /\ JSDate.dayBefore d now = false
            /\ AppointmentScheduler.time f = ValidDate t
            /\ (is_Some (AppointmentScheduler.selectedTimeSlot f)
                \/ AppointmentScheduler.showManualTimeInput f = true)
            /\ (isToday now d = true ->
                JSDate.isBefore
                  (JSDate.setHoursMinutes d (JSDate.getHours t)
                     (JSDate.getMinutes t)) now = false)
            /\ (AppointmentScheduler.isRecurring f = true ->
                is_Some (AppointmentScheduler.recurrencePattern f)
                /\ AppointmentScheduler.recurrenceEnd f <> InvalidDate
                /\ forall e,
                     AppointmentScheduler.recurrenceEnd f = ValidDate e ->
                     JSDate.isBefore e d = false))
      /\ (15 <= AppointmentScheduler.duration f <= 240)%Z.
Proof.
  rewrite validateInputs_empty, appointment_dateError_None,
    durationError_None.
  split.
  - intros (H1 & H2 & H3 & (d & Hd & Hday) & Htime & Hrec & Hdur).
    destruct (proj1 (appointment_timeError_None now d f Hd) Htime)
      as (t & Ht & Hslot & Htoday).
    pose proof (proj1 (appointment_recurrenceError_None d f Hd) Hrec).
    repeat split; try assumption; try lia. by exists d, t.
  - intros (H1 & H2 & H3
            & (d & t & Hd & Hday & Ht & Hslot & Htoday & Hrec) & Hdur).
    repeat split; try assumption; try lia.
    + by exists d.
    + apply (appointment_timeError_None now d f Hd). by exists t.
    + by apply (appointment_recurrenceError_None d f Hd).
Qed.

(** ** Reading a calendar selection back *)

Lemma digitChar_not_hyphen (k : nat) :
  k < 10 -> Ascii.eqb (JSString.digitChar k) "-" = false.
Proof. intros H. do 10 (destruct k as [| k]; [reflexivity |]). lia. Qed.

Lemma digitValue_digitChar (k : nat) :
  k < 10 -> JSString.digitValue (JSString.digitChar k) = k.
Proof. intros H. do 10 (destruct k as [| k]; [reflexivity |]). lia. Qed.

Lemma twoDigits_bounds (n : nat) : n <= 99 -> n / 10 < 10 /\ n mod 10 < 10.
Proof.
  intros H. split; [apply Nat.Div0.div_lt_upper_bound; lia |].
  apply Nat.mod_upper_bound. lia.
Qed.

Lemma fourDigits_bounds (n : nat) :
  n < 100 * 100 ->
  n / 1000 < 10 /\ n / 100 mod 10 < 10
  /\ n mod 100 / 10 < 10 /\ n mod 100 mod 10 < 10.
Proof.
  intros H. pose proof (Nat.mod_upper_bound n 100).
  repeat split;
    first [ apply Nat.mod_upper_bound; lia
          | apply Nat.Div0.div_lt_upper_bound; lia ].
Qed.

(** The parts of a canonical date are its year, its month and its
    day. *)
Lemma split_canonicalDate (year month day : nat) :
  year < 100 * 100 -> month <= 99 -> day <= 99 ->
  JSString.split "-" (canonicalDate year month day)
  = [fourDigits year; twoDigits month; twoDigits day].
Proof.
  intros Hy Hm Hd.
  destruct (fourDigits_bounds year Hy) as (Y1 & Y2 & Y3 & Y4).
  destruct (twoDigits_bounds month Hm) as [M1 M2].
  destruct (twoDigits_bounds day Hd) as [D1 D2].
  cbv [canonicalDate fourDigits twoDigits String.append JSString.split].
  rewrite !digitChar_not_hyphen by assumption.
  reflexivity.
Qed.

Lemma parseDigits_twoDigits (n : nat) :
  n <= 99 -> JSString.parseDigits (twoDigits n) = Some n.
Proof.
  intros H. destruct (twoDigits_bounds n H) as [H1 H2].
  unfold twoDigits, JSString.parseDigits. cbn [JSString.digitsValue].
  rewrite !isDigit_digitChar, !digitValue_digitChar by assumption.
  f_equal. pose proof (Nat.div_mod_eq n 10). lia.
Qed.

Lemma parseDigits_fourDigits (n : nat) :
  n < 100 * 100 -> JSString.parseDigits (fourDigits n) = Some n.
Proof.
  intros H. destruct (fourDigits_bounds n H) as (H1 & H2 & H3 & H4).
  unfold fourDigits, twoDigits, JSString.parseDigits.
  cbn [JSString.digitsValue].
  rewrite !isDigit_digitChar, !digitValue_digitChar by assumption.
  f_equal.
  pose proof (Nat.div_mod_eq n 100).
  pose proof (Nat.div_mod_eq (n mod 100) 10).
  pose proof (Nat.div_mod_eq (n / 100) 10).
  replace (n / 1000) with (n / 100 / 10)
    by (rewrite Nat.Div0.div_div; reflexivity).
  lia.
Qed.

Lemma daysInMonth_le (year monthIndex : nat) :
  JSDate.daysInMonth year monthIndex <= 31.
Proof.
  unfold JSDate.daysInMonth.
  do 12 (destruct monthIndex as [| monthIndex];
         [try destruct (JSDate.isLeapYear year); lia |]).
  lia.
Qed.

Lemma dateAtNoon_valid (year month day : nat) :
  100 <= year -> 1 <= month <= 12 ->
  1 <= day <= JSDate.daysInMonth year (month - 1) ->
  dateAtNoon year month day = Some (JSDate.mk year (month - 1) day 12 0 0 0).
Proof.
  intros Hy Hm Hd. unfold dateAtNoon, JSDate.fromParts.
  replace (1 <=? month) with true by (symmetry; apply Nat.leb_le; lia).
  replace (100 <=? year) with true by (symmetry; apply Nat.leb_le; lia).
  replace (month - 1 <=? 11) with true by (symmetry; apply Nat.leb_le; lia).
  replace (1 <=? day) with true by (symmetry; apply Nat.leb_le; lia).
  replace (day <=? JSDate.daysInMonth year (month - 1)) with true
    by (symmetry; apply Nat.leb_le; lia).
  reflexivity.
Qed.

(** The string the dialogs persist, in its canonical form. *)
Lemma manualDateFormat_canonical (date : Date) :
  1000 <= JSDate.getFullYear date < 100 * 100 ->
  JSDate.getMonth date <= 11 -> JSDate.getDate date <= 99 ->
  manualDateFormat date
  = canonicalDate (JSDate.getFullYear date) (JSDate.getMonth date + 1)
                  (JSDate.getDate date).
Proof.
  intros Hy Hm Hd. unfold manualDateFormat, canonicalDate.
  rewrite toString_fourDigits by assumption.
  rewrite !padStart_twoDigits by lia. reflexivity.
Qed.

(** A day tapped on the calendar comes back as itself: from the
    string ["YYYY-MM-DD"] of a date of the calendar, the scheduler and
    the event dialog both make the date of that day at noon, and what
    they persist for that date is the very string. *)
Theorem calendar_selection_round_trip (year month day : nat) :
  1000 <= year < 100 * 100 -> 1 <= month <= 12 ->
  1 <= day <= JSDate.daysInMonth year (month - 1) ->
  AppointmentScheduler.handleCustomCalendarSelect
    (canonicalDate year month day)
  = Some (JSDate.mk year (month - 1) day 12 0 0 0)
  /\ AddEventModal.initialDateEffect (Some (canonicalDate year month day))
     = Some (JSDate.mk year (month - 1) day 12 0 0 0)
  /\ AppointmentScheduler.formattedDate
       (JSDate.mk year (month - 1) day 12 0 0 0)
     = canonicalDate year month day
  /\ AddEventModal.formattedDate (JSDate.mk year (month - 1) day 12 0 0 0)
     = canonicalDate year month day.
Proof.
  intros Hy Hm Hd.
  pose proof (daysInMonth_le year (month - 1)) as Hdays.
  assert (map JSString.parseDigits
              (JSString.split "-" (canonicalDate year month day))
          = [Some year; Some month; Some day]) as Hparts.
  { rewrite split_canonicalDate by lia. cbn [map].
    rewrite parseDigits_fourDigits, !parseDigits_twoDigits by lia.
    reflexivity. }
  split; [| split].
  - unfold AppointmentScheduler.handleCustomCalendarSelect.
    rewrite Hparts. apply dateAtNoon_valid; lia.
  - unfold AddEventModal.initialDateEffect.
    change (canonicalDate year month day)
      with (String (JSString.digitChar (year / 1000))
              (String (JSString.digitChar (year / 100 mod 10))
                 (twoDigits (year mod 100) ++ "-" ++ twoDigits month
                  ++ "-" ++ twoDigits day))) at 1.
    cbv beta iota.
    change (String (JSString.digitChar (year / 1000))
              (String (JSString.digitChar (year / 100 mod 10))
                 (twoDigits (year mod 100) ++ "-" ++ twoDigits month
                  ++ "-" ++ twoDigits day)))
      with (canonicalDate year month day).
    rewrite Hparts. rewrite split_canonicalDate by lia.
    cbn [length Nat.eqb]. apply dateAtNoon_valid; lia.
  - unfold AppointmentScheduler.formattedDate, AddEventModal.formattedDate.
    rewrite manualDateFormat_canonical by (simpl; lia). simpl.
    replace (month - 1 + 1) with month by lia. by split.
Qed.

(** 29 February 2024. *)
Lemma calendar_selection_round_trip_witness :
  AppointmentScheduler.handleCustomCalendarSelect "2024-02-29"
  = Some (JSDate.mk 2024 1 29 12 0 0 0)
  /\ AddEventModal.initialDateEffect (Some "2024-02-29")
     = Some (JSDate.mk 2024 1 29 12 0 0 0)
  /\ AppointmentScheduler.formattedDate (JSDate.mk 2024 1 29 12 0 0 0)
     = "2024-02-29"
  /\ AddEventModal.formattedDate (JSDate.mk 2024 1 29 12 0 0 0)
     = "2024-02-29".
Proof.
  apply (calendar_selection_round_trip 2024 2 29);
    [simpl; lia | lia | vm_compute; lia].
Defined.

(** A date string either dialog persists is a key of the marker map as
    it is: the calendar's [formatDateString] returns it unchanged and
    never hands it to the date parser. *)
Theorem persisted_date_is_marker_key
    (parseAndFormat : string -> option string) (date : Date) :
  1000 <= JSDate.getFullYear date < 100 * 100 ->
  JSDate.getMonth date <= 11 ->
  1 <= JSDate.getDate date <= 31 ->
  CalendarScreen.formatDateString parseAndFormat
    (AppointmentScheduler.formattedDate date)
  = AppointmentScheduler.formattedDate date
  /\ CalendarScreen.formatDateString parseAndFormat
       (AddEventModal.formattedDate date)
     = AddEventModal.formattedDate date.
Proof.
  intros Hy Hm Hd.
  unfold AppointmentScheduler.formattedDate, AddEventModal.formattedDate.
  rewrite manualDateFormat_canonical by lia.
  assert (CalendarScreen.formatDateString parseAndFormat
            (canonicalDate (JSDate.getFullYear date)
               (JSDate.getMonth date + 1) (JSDate.getDate date))
          = canonicalDate (JSDate.getFullYear date)
              (JSDate.getMonth date + 1) (JSDate.getDate date)) as H.
  { unfold CalendarScreen.formatDateString.
    destruct (canonicalDate_shape (JSDate.getFullYear date)
                (JSDate.getMonth date + 1) (JSDate.getDate date))
      as [_ ->]; [lia | lia | lia |].
    reflexivity. }
  by split.
Qed.

Lemma persisted_date_is_marker_key_witness :
  CalendarScreen.formatDateString (fun _ => None)
    (AppointmentScheduler.formattedDate (JSDate.mk 2024 2 5 12 0 0 0))
  = AppointmentScheduler.formattedDate (JSDate.mk 2024 2 5 12 0 0 0)
  /\ CalendarScreen.formatDateString (fun _ => None)
       (AddEventModal.formattedDate (JSDate.mk 2024 2 5 12 0 0 0))
     = AddEventModal.formattedDate (JSDate.mk 2024 2 5 12 0 0 0).
Proof.
  apply (persisted_date_is_marker_key (fun _ => None)
           (JSDate.mk 2024 2 5 12 0 0 0));
    simpl; lia.
Defined.

(** ** The event the dialog saves *)

Lemma trimStart_not_blank (s : string) :
  JSString.isBlank s = false ->
  exists c s', JSString.trimStart s = String c s'
               /\ JSString.isWhiteSpace c = false.
Proof.
  unfold JSString.isBlank. induction s as [| c s IH]; simpl;
    [discriminate |].
  destruct (JSString.isWhiteSpace c) eqn:Hc; simpl; [exact IH |].
  intros _. by exists c, s.
Qed.

(** A string that is not blank is not empty once trimmed. *)
Lemma trim_not_blank (s : string) :
  JSString.isBlank s = false -> JSString.trim s <> EmptyString.
Proof.
  intros H. destruct (trimStart_not_blank s H) as (c & s' & Hs & Hc).
  unfold JSString.trim. rewrite Hs. simpl.
  destruct (JSString.trimEnd s'); [by rewrite Hc | discriminate].
Qed.

(** The time of day of a time as the dialogs persist it. *)
Lemma parseTime_formatHHmm (time : Date) :
  JSDate.getHours time < 24 -> JSDate.getMinutes time < 60 ->
  parseTime (formatHHmm time) = Some (JSDate.minuteOfDay time).
Proof.
  intros Hh Hm.
  destruct (twoDigits_bounds (JSDate.getHours time)) as [H1 H2]; [lia |].
  destruct (twoDigits_bounds (JSDate.getMinutes time)) as [M1 M2]; [lia |].
  cbv [formatHHmm twoDigits String.append parseTime list_ascii_of_string
       forallb].
  rewrite !isDigit_digitChar, !digitValue_digitChar by assumption.
  replace (10 * (JSDate.getHours time / 10) + JSDate.getHours time mod 10)
    with (JSDate.getHours time)
    by (pose proof (Nat.div_mod_eq (JSDate.getHours time) 10); lia).
  replace (10 * (JSDate.getMinutes time / 10)
           + JSDate.getMinutes time mod 10)
    with (JSDate.getMinutes time)
    by (pose proof (Nat.div_mod_eq (JSDate.getMinutes time) 10); lia).
  apply Nat.ltb_lt in Hh, Hm. rewrite Hh, Hm. reflexivity.
Qed.

(** What the handler gives to [addEvent] on a form that validates. *)
Lemma handleAddEvent_validated (user : User) (now : Date)
    (f : AddEventModal.Form) (formRecurrenceEnd : DateField)
    (formCategory : AddEventModal.Category) :
  AddEventModal.validateForm now f = ∅ ->
  exists d formattedTime,
    AddEventModal.formDate f = ValidDate d
    /\ (if AddEventModal.formIsAllDay f then formattedTime = None
        else exists t, AddEventModal.formTime f = ValidDate t
                       /\ formattedTime = Some (formatHHmm t))
    /\ AddEventModal.handleAddEvent false (Some user) now f
         formRecurrenceEnd formCategory
       = Some
           (AddEventModal.mkEvent None
              (JSString.trim (AddEventModal.formTitle f))
              (AddEventModal.formattedDate d) formattedTime
              (JSString.trim (AddEventModal.formLocation f))
              (AddEventModal.formIsAllDay f)
              (AddEventModal.formIsRecurring f)
              (if AddEventModal.formIsRecurring f
               then AddEventModal.formRecurrencePattern f else None)
              (if AddEventModal.formIsRecurring f then
                 match formRecurrenceEnd with
                 | NoDate => None
                 | InvalidDate => Some "NaN-NaN-NaN"
                 | ValidDate e => Some (manualDateFormat e)
                 end
               else None)
              formCategory
              (Some (AddEventModal.getCategoryColor formCategory))
              AddEventModal.upcoming).
Proof.
  intros Hvalid. unfold AddEventModal.handleAddEvent. rewrite Hvalid.
  apply validateForm_empty in Hvalid as (_ & _ & Hdate & Htime & Hrec).
  apply event_dateError_None in Hdate as (d & Hd & _).
  pose proof (proj1 (event_timeError_None f) Htime) as Ht.
  pose proof (proj1 (event_recurrenceError_None f) Hrec) as Hr.
  rewrite Hd. change (0 <? size (∅ : gmap string string)) with false.
  cbv iota.
  destruct (AddEventModal.formIsAllDay f) eqn:Hall.
  - exists d, None. split; [reflexivity |]. split; [reflexivity |].
    destruct (AddEventModal.formIsRecurring f); [| reflexivity].
    by rewrite (Hr eq_refl).
  - destruct (Ht eq_refl) as [t Htime']. rewrite Htime'.
    exists d, (Some (formatHHmm t)). split; [reflexivity |].
    split; [by exists t |].
    destruct (AddEventModal.formIsRecurring f); [| reflexivity].
    by rewrite (Hr eq_refl).
Qed.

Lemma handleAddEvent_signed_out (now : Date) (f : AddEventModal.Form)
    (formRecurrenceEnd : DateField) (formCategory : AddEventModal.Category) :
  AddEventModal.handleAddEvent false None now f formRecurrenceEnd
    formCategory = None.
Proof.
  unfold AddEventModal.handleAddEvent. cbv iota zeta.
  by destruct (0 <? size (AddEventModal.validateForm now f)).
Qed.

(** While a submission is under way, and when nobody is signed in,
    nothing is given to [addEvent].  Otherwise an event form that
    validates is saved, and the event given to
    [addEvent] is one the agenda can order: all day with no time, or
    with a time ["HH:mm"] that denotes the time of day selected; it is
    upcoming, its title and its location are not empty, it repeats
    exactly when it has a recurrence pattern, and it has a recurrence
    end only when it repeats. *)
Theorem saved_event_well_formed (user : User) (now : Date)
    (f : AddEventModal.Form) (formRecurrenceEnd : DateField)
    (formCategory : AddEventModal.Category) :
  AddEventModal.validateForm now f = ∅ ->
  (forall t, AddEventModal.formTime f = ValidDate t ->
             JSDate.getHours t < 24 /\ JSDate.getMinutes t < 60) ->
  AddEventModal.handleAddEvent true (Some user) now f
    formRecurrenceEnd formCategory = None
  /\ AddEventModal.handleAddEvent false None now f
       formRecurrenceEnd formCategory = None
  /\ exists e,
    AddEventModal.handleAddEvent false (Some user) now f
      formRecurrenceEnd formCategory
    = Some e
    /\ wellTimed (CalendarScreen.EventItem e)
    /\ (AddEventModal.isAllDay e = true -> AddEventModal.time e = None)
    /\ (AddEventModal.isAllDay e = false ->
        exists t, AddEventModal.formTime f = ValidDate t
                  /\ timeOfDay (CalendarScreen.EventItem e)
                     = Some (JSDate.minuteOfDay t))
    /\ AddEventModal.status e = AddEventModal.upcoming
    /\ AddEventModal.title e <> EmptyString
    /\ AddEventModal.location e <> EmptyString
    /\ (AddEventModal.isRecurring e = true
        <-> is_Some (AddEventModal.recurrencePattern e))
    /\ (is_Some (AddEventModal.recurrenceEnd e) ->
        AddEventModal.isRecurring e = true).
Proof.
  intros Hvalid Hclock.
  split; [reflexivity |].
  split; [apply handleAddEvent_signed_out |].
  destruct (handleAddEvent_validated user now f formRecurrenceEnd
              formCategory Hvalid) as (d & formattedTime & Hd & Htime & ->).
  apply validateForm_empty in Hvalid as (Htitle & Hloc & _ & _ & Hrec).
  pose proof (proj1 (event_recurrenceError_None f) Hrec) as Hr.
  assert (AddEventModal.formIsRecurring f = true
          <-> is_Some (if AddEventModal.formIsRecurring f
                       then AddEventModal.formRecurrencePattern f
                       else None)) as Hpattern.
  { destruct (AddEventModal.formIsRecurring f); [| split; [done |]].
    - specialize (Hr eq_refl).
      destruct (AddEventModal.formRecurrencePattern f);
        [by split; [eexists |] | discriminate Hr].
    - by intros [pattern H]. }
  assert (is_Some (if AddEventModal.formIsRecurring f then
                     match formRecurrenceEnd with
                     | NoDate => None
                     | InvalidDate => Some "NaN-NaN-NaN"
                     | ValidDate e => Some (manualDateFormat e)
                     end
                   else None) ->
          AddEventModal.formIsRecurring f = true) as Hend.
  { destruct (AddEventModal.formIsRecurring f); [done | by intros [e H]]. }
  eexists. split; [reflexivity |]. simpl.
  unfold wellTimed, timeOfDay. simpl.
  destruct (AddEventModal.formIsAllDay f) eqn:Hall.
  - subst formattedTime.
    repeat split; try done; try (by apply trim_not_blank);
      try (by apply Hpattern).
    by left.
  - destruct Htime as (t & Ht & ->).
    destruct (Hclock t Ht) as [Hh Hm].
    repeat split; try done; try (by apply trim_not_blank);
      try (by apply Hpattern).
    + right. rewrite parseTime_formatHHmm by assumption. by eexists.
    + intros _. exists t. split; [assumption |].
      by apply parseTime_formatHHmm.
Qed.

(** The calendar keeps a persisted date string as it is. *)
Lemma persisted_date_key (parseAndFormat : string -> option string)
    (d : Date) :
  1000 <= JSDate.getFullYear d < 100 * 100 ->
  JSDate.getMonth d <= 11 -> 1 <= JSDate.getDate d <= 31 ->
  CalendarScreen.formatDateString parseAndFormat
    (AddEventModal.formattedDate d)
  = AddEventModal.formattedDate d.
Proof.
  intros Hy Hm Hd. unfold AddEventModal.formattedDate.
  rewrite manualDateFormat_canonical by lia.
  unfold CalendarScreen.formatDateString.
  destruct (canonicalDate_shape (JSDate.getFullYear d)
              (JSDate.getMonth d + 1) (JSDate.getDate d))
    as [_ ->]; [lia | lia | lia |].
  reflexivity.
Qed.

Lemma saved_event_well_formed_witness :
  AddEventModal.handleAddEvent true (Some juneUser) juneNoon lunchForm
    NoDate AddEventModal.work = None
  /\ AddEventModal.handleAddEvent false None juneNoon lunchForm
       NoDate AddEventModal.work = None
  /\ exists e,
    AddEventModal.handleAddEvent false (Some juneUser) juneNoon lunchForm
      NoDate AddEventModal.work
    = Some e
    /\ wellTimed (CalendarScreen.EventItem e)
    /\ (AddEventModal.isAllDay e = true -> AddEventModal.time e = None)
    /\ (AddEventModal.isAllDay e = false ->
        exists t, AddEventModal.formTime lunchForm = ValidDate t
                  /\ timeOfDay (CalendarScreen.EventItem e)
                     = Some (JSDate.minuteOfDay t))
    /\ AddEventModal.status e = AddEventModal.upcoming
    /\ AddEventModal.title e <> EmptyString
    /\ AddEventModal.location e <> EmptyString
    /\ (AddEventModal.isRecurring e = true
        <-> is_Some (AddEventModal.recurrencePattern e))
    /\ (is_Some (AddEventModal.recurrenceEnd e) ->
        AddEventModal.isRecurring e = true).
Proof.
  apply (saved_event_well_formed juneUser juneNoon lunchForm NoDate
                                 AddEventModal.work).
  - vm_compute. reflexivity.
  - intros t [= <-]. simpl. lia.
Defined.

(** The event saved from a form that validates shows on the calendar
    under its own date: its colour is the colour of its category in
    the dialog, whatever the palette of the calendar; alone on the
    calendar, it is the one dot of its date and the one item of the
    agenda of its date. *)
Theorem saved_event_on_calendar
    (Colors_light_primary Colors_light_wellness : string)
    (Colors_light_appointment colors_primary : string)
    (parseAndFormat : string -> option string)
    (user : User) (now : Date) (f : AddEventModal.Form)
    (formRecurrenceEnd : DateField)
    (formCategory : AddEventModal.Category) (sel : string) :
  AddEventModal.validateForm now f = ∅ ->
  (forall d, AddEventModal.formDate f = ValidDate d ->
             1000 <= JSDate.getFullYear d < 100 * 100
             /\ JSDate.getMonth d <= 11 /\ 1 <= JSDate.getDate d <= 31) ->
  exists e,
    AddEventModal.handleAddEvent false (Some user) now f
      formRecurrenceEnd formCategory
    = Some e
    /\ CalendarScreen.eventColor Colors_light_primary Colors_light_wellness e
       = AddEventModal.getCategoryColor formCategory
    /\ dotsOn (CalendarScreen.updateMarkedDates Colors_light_primary
                 Colors_light_wellness Colors_light_appointment
                 colors_primary parseAndFormat sel [e] [])
              (AddEventModal.date e)
       = [CalendarScreen.mkDot None
            (AddEventModal.getCategoryColor formCategory)]
    /\ CalendarScreen.agendaForDate [e] [] (AddEventModal.date e)
       = Some [CalendarScreen.EventItem e].
Proof.
  intros Hvalid Hdate.
  destruct (handleAddEvent_validated user now f formRecurrenceEnd
              formCategory Hvalid) as (d & formattedTime & Hd & _ & ->).
  destruct (Hdate d Hd) as (Hy & Hm & Hday).
  eexists. split; [reflexivity |]. simpl.
  assert (CalendarScreen.eventColor Colors_light_primary
            Colors_light_wellness
            (AddEventModal.mkEvent None
               (JSString.trim (AddEventModal.formTitle f))
               (AddEventModal.formattedDate d) formattedTime
               (JSString.trim (AddEventModal.formLocation f))
               (AddEventModal.formIsAllDay f)
               (AddEventModal.formIsRecurring f)
               (if AddEventModal.formIsRecurring f
                then AddEventModal.formRecurrencePattern f else None)
               (if AddEventModal.formIsRecurring f then
                  match formRecurrenceEnd with
                  | NoDate => None
                  | InvalidDate => Some "NaN-NaN-NaN"
                  | ValidDate e => Some (manualDateFormat e)
                  end
                else None)
               formCategory
               (Some (AddEventModal.getCategoryColor formCategory))
               AddEventModal.upcoming)
          = AddEventModal.getCategoryColor formCategory) as Hcolor.
  { by destruct formCategory. }
  split; [exact Hcolor |]. split.
  - rewrite updateMarkedDates_dotsOn.
    rewrite filter_nil, app_nil_r.
    rewrite filter_cons, decide_True, filter_nil.
    + cbn [map]. unfold CalendarScreen.eventDot. by rewrite Hcolor.
    + split; [done |]. simpl.
      by apply persisted_date_key.
  - unfold CalendarScreen.agendaForDate,
      CalendarScreen.updateSelectedDateEvents.
    change (CalendarScreen.activeAppointments []) with
      (@nil CalendarScreen.Appointment).
    rewrite filter_nil, filter_cons, decide_True, filter_nil by done.
    reflexivity.
Qed.

Lemma saved_event_on_calendar_witness :
  exists e,
    AddEventModal.handleAddEvent false (Some juneUser) juneNoon lunchForm
      NoDate AddEventModal.work
    = Some e
    /\ CalendarScreen.eventColor "#0A84FF" "#34C759" e
       = AddEventModal.getCategoryColor AddEventModal.work
    /\ dotsOn (CalendarScreen.updateMarkedDates "#0A84FF" "#34C759" "#5856D6"
                 "#0A84FF" (fun _ => None) "2024-06-02" [e] [])
              (AddEventModal.date e)
       = [CalendarScreen.mkDot None
            (AddEventModal.getCategoryColor AddEventModal.work)]
    /\ CalendarScreen.agendaForDate [e] [] (AddEventModal.date e)
       = Some [CalendarScreen.EventItem e].
Proof.
  apply (saved_event_on_calendar "#0A84FF" "#34C759" "#5856D6" "#0A84FF"
           (fun _ => None) juneUser juneNoon lunchForm NoDate
           AddEventModal.work "2024-06-02").
  - vm_compute. reflexivity.
  - intros d [= <-]. simpl. lia.
Defined.

(** ** More on the agenda and the markers *)

(** When every event that is not all day has a time, the agenda of a
    date is returned and is a rearrangement of the events dated that
    day followed by the active appointments dated that day: the sort
    neither drops nor repeats an item, so the agenda has as many items
    as there are such entities. *)
Theorem agenda_keeps_every_entry (eventsList : list Event)
    (appointmentsList : list Appointment) (date : string) :
  Forall (fun e => isAllDay e = true \/ is_Some (time e)) eventsList ->
  exists agenda,
    agendaForDate eventsList appointmentsList date = Some agenda
    /\ Permutation
         (map EventItem
              (filter (fun event => AddEventModal.date event = date)
                      eventsList)
          ++ map toAgendaItem
               (filter (fun apt => aptDate apt = date)
                       (activeAppointments appointmentsList)))
         agenda
    /\ length agenda
       = length (filter (fun event => AddEventModal.date event = date)
                        eventsList)
         + length (filter (fun apt => aptDate apt = date)
                          (activeAppointments appointmentsList)).
Proof.
  intros He.
  destruct (agendaForDate_returns eventsList appointmentsList date He)
    as [agenda Hagenda].
  exists agenda. split; [assumption |].
  apply agendaForDate_Permutation in Hagenda. split; [assumption |].
  rewrite <- (Permutation_length Hagenda).
  by rewrite length_app, !length_map.
Qed.

Lemma agenda_keeps_every_entry_witness :
  Forall (fun e => isAllDay e = true \/ is_Some (time e))
         [weeklyEvent; cancelledEvent]
  /\ exists agenda,
       agendaForDate [weeklyEvent; cancelledEvent] [juneAppointment]
                     "2024-01-01" = Some agenda
       /\ Permutation
            (map EventItem
                 (filter (fun event => AddEventModal.date event
                                       = "2024-01-01")
                         [weeklyEvent; cancelledEvent])
             ++ map toAgendaItem
                  (filter (fun apt => aptDate apt = "2024-01-01")
                          (activeAppointments [juneAppointment])))
            agenda
       /\ length agenda
          = length (filter (fun event => AddEventModal.date event
                                         = "2024-01-01")
                           [weeklyEvent; cancelledEvent])
            + length (filter (fun apt => aptDate apt = "2024-01-01")
                             (activeAppointments [juneAppointment])).
Proof.
  assert (Forall (fun e => isAllDay e = true \/ is_Some (time e))
                 [weeklyEvent; cancelledEvent]) as He.
  { constructor; [right; by eexists |].
    constructor; [right; by eexists | constructor]. }
  split; [exact He |].
  exact (agenda_keeps_every_entry [weeklyEvent; cancelledEvent]
           [juneAppointment] "2024-01-01" He).
Defined.

(** Once an event is deleted, the agenda of any date holds the events
    of that date but the ones with the deleted id. *)
Theorem deleted_event_leaves_agenda (eventId : string)
    (eventsList : list Event) (appointmentsList : list Appointment)
    (date : string) :
  Forall (fun e => isAllDay e = true \/ is_Some (time e)) eventsList ->
  exists agenda,
    agendaForDate (handleDeleteEvent eventId eventsList) appointmentsList
                  date = Some agenda
    /\ (forall e,
          In (EventItem e) agenda
          <-> In e eventsList /\ AddEventModal.date e = date
              /\ id e <> Some eventId)
    /\ (forall a,
          In (toAgendaItem a) agenda
          <-> In a appointmentsList /\ aptDate a = date
              /\ aptStatus a <> "cancelled").
Proof.
  intros He.
  assert (Forall (fun e => isAllDay e = true \/ is_Some (time e))
                 (handleDeleteEvent eventId eventsList)) as He'.
  { unfold handleDeleteEvent. by apply Forall_filter_sub. }
  destruct (agendaForDate_returns _ appointmentsList date He')
    as [agenda Hagenda].
  exists agenda. split; [assumption |].
  apply agendaForDate_Permutation in Hagenda.
  split.
  - intros e. split.
    + intros H. apply (Permutation_in _ (Permutation_sym Hagenda)) in H.
      apply in_app_iff in H as [H | H];
        apply in_map_iff in H as (x & Hx & H); [| discriminate].
      inversion Hx; subst.
      apply list_elem_of_In, list_elem_of_filter in H as [Hdate H].
      apply list_elem_of_filter in H as [Hid H].
      split; [by apply list_elem_of_In | by split].
    + intros (Hin & Hdate & Hid). apply (Permutation_in _ Hagenda).
      apply in_app_iff. left. apply in_map. apply list_elem_of_In.
      apply list_elem_of_filter. split; [assumption |].
      apply list_elem_of_filter. split; [assumption |].
      by apply list_elem_of_In.
  - intros a. split.
    + intros H. apply (Permutation_in _ (Permutation_sym Hagenda)) in H.
      apply in_app_iff in H as [H | H];
        apply in_map_iff in H as (x & Hx & H); [discriminate |].
      apply list_elem_of_In, list_elem_of_filter in H as [Hdate H].
      apply list_elem_of_filter in H as [Hstatus H].
      apply list_elem_of_In in H.
      assert (x = a) as -> by (unfold toAgendaItem in Hx; by inversion Hx).
      by repeat split.
    + intros (Hin & Hdate & Hstatus).
      apply (Permutation_in _ Hagenda). apply in_app_iff. right.
      apply in_map. apply list_elem_of_In.
      apply list_elem_of_filter. split; [assumption |].
      apply list_elem_of_filter. split; [assumption |].
      by apply list_elem_of_In.
Qed.

Lemma deleted_event_leaves_agenda_witness :
  Forall (fun e => isAllDay e = true \/ is_Some (time e))
         [weeklyEvent; cancelledEvent]
  /\ exists agenda,
       agendaForDate (handleDeleteEvent "e3" [weeklyEvent; cancelledEvent])
                     [juneAppointment] "2024-01-01" = Some agenda
       /\ (forall e,
             In (EventItem e) agenda
             <-> In e [weeklyEvent; cancelledEvent]
                 /\ AddEventModal.date e = "2024-01-01"
                 /\ id e <> Some "e3")
       /\ (forall a,
             In (toAgendaItem a) agenda
             <-> In a [juneAppointment] /\ aptDate a = "2024-01-01"
                 /\ aptStatus a <> "cancelled").
Proof.
  assert (Forall (fun e => isAllDay e = true \/ is_Some (time e))
                 [weeklyEvent; cancelledEvent]) as He.
  { constructor; [right; by eexists |].
    constructor; [right; by eexists | constructor]. }
  split; [exact He |].
  exact (deleted_event_leaves_agenda "e3" [weeklyEvent; cancelledEvent]
           [juneAppointment] "2024-01-01" He).
Defined.

(** An entry the loops make: dots, and no selection field. *)
Lemma addDot_plain (formattedDate : string) (dot : Dot)
    (marked : gmap string Marking) :
  map_Forall (fun _ m => dots m <> [] /\ selected m = None
                         /\ selectedColor m = None
                         /\ selectedTextColor m = None) marked ->
  map_Forall (fun _ m => dots m <> [] /\ selected m = None
                         /\ selectedColor m = None
                         /\ selectedTextColor m = None)
             (addDot formattedDate dot marked).
Proof.
  intros H. unfold addDot.
  destruct (marked !! formattedDate) as [m |] eqn:Hm.
  - apply map_Forall_insert_2; [| assumption].
    destruct (H _ _ Hm) as (Hdots & Hsel & Hcolor & Htext). simpl.
    repeat split; try assumption. by destruct (dots m).
  - apply map_Forall_insert_2; [| assumption]. by repeat split.
Qed.

Section MoreMarkers.

Variables Colors_light_primary Colors_light_wellness : string.
Variables Colors_light_appointment colors_primary : string.
Variable parseAndFormat : string -> option string.

Lemma marking_loops_plain (eventsList : list Event)
    (appointmentsList : list Appointment) :
  map_Forall (fun _ m => dots m <> [] /\ selected m = None
                         /\ selectedColor m = None
                         /\ selectedTextColor m = None)
    (fold_left (markAppointment Colors_light_appointment parseAndFormat)
       appointmentsList
       (fold_left
          (markEvent Colors_light_primary Colors_light_wellness
             parseAndFormat)
          eventsList ∅)).
Proof.
  assert (forall marked,
            map_Forall (fun _ m => dots m <> [] /\ selected m = None
                                   /\ selectedColor m = None
                                   /\ selectedTextColor m = None) marked ->
            map_Forall (fun _ m => dots m <> [] /\ selected m = None
                                   /\ selectedColor m = None
                                   /\ selectedTextColor m = None)
              (fold_left
                 (markEvent Colors_light_primary Colors_light_wellness
                    parseAndFormat)
                 eventsList marked)) as Hevents.
  { induction eventsList as [| e es IH]; intros marked H; [exact H |].
    simpl. apply IH. unfold markEvent. case_decide; [| exact H].
    by apply addDot_plain. }
  assert (forall marked,
            map_Forall (fun _ m => dots m <> [] /\ selected m = None
                                   /\ selectedColor m = None
                                   /\ selectedTextColor m = None) marked ->
            map_Forall (fun _ m => dots m <> [] /\ selected m = None
                                   /\ selectedColor m = None
                                   /\ selectedTextColor m = None)
              (fold_left
                 (markAppointment Colors_light_appointment parseAndFormat)
                 appointmentsList marked)) as Happointments.
  { induction appointmentsList as [| a apts IH]; intros marked H;
      [exact H |].
    simpl. apply IH. unfold markAppointment. by apply addDot_plain. }
  apply Happointments, Hevents, map_Forall_empty.
Qed.

(** A date other than the selected one has an entry in the marker map
    exactly when it has a dot, and its entry has none of the selection
    fields: the highlight is on the selected date alone. *)
Theorem only_selected_date_highlighted (sel d : string)
    (eventsList : list Event) (appointmentsList : list Appointment) :
  d <> sel ->
  (updateMarkedDates Colors_light_primary Colors_light_wellness
     Colors_light_appointment colors_primary parseAndFormat
     sel eventsList appointmentsList !! d = None
   <-> dotsOn (updateMarkedDates Colors_light_primary Colors_light_wellness
                 Colors_light_appointment colors_primary parseAndFormat
                 sel eventsList appointmentsList) d = [])
  /\ forall m,
       updateMarkedDates Colors_light_primary Colors_light_wellness
         Colors_light_appointment colors_primary parseAndFormat
         sel eventsList appointmentsList !! d = Some m ->
       selected m = None /\ selectedColor m = None
       /\ selectedTextColor m = None.
Proof.
  intros Hd. unfold dotsOn, updateMarkedDates.
  pose proof (marking_loops_plain eventsList appointmentsList) as Hplain.
  set (marked := fold_left _ appointmentsList _) in *.
  assert ((match marked !! sel with
           | Some m =>
               <[sel := mkMarking (dots m) (Some true)
                          (Some (colors_primary ++ "80")%string)
                          (Some "#ffffff")]> marked
           | None =>
               <[sel := mkMarking [] (Some true)
                          (Some (colors_primary ++ "80")%string)
                          (Some "#ffffff")]> marked
           end) !! d = marked !! d) as ->.
  { destruct (marked !! sel); by rewrite lookup_insert_ne. }
  destruct (marked !! d) as [m |] eqn:Hm.
  - destruct (Hplain _ _ Hm) as (Hdots & Hsel & Hcolor & Htext).
    split; [by split | by intros m' [= <-]].
  - split; [by split | discriminate].
Qed.

(** Cancelled events leave no trace in the marker map: it is the map
    of the events that are not cancelled. *)
Theorem cancelled_events_not_marked (sel : string)
    (eventsList : list Event) (appointmentsList : list Appointment) :
  updateMarkedDates Colors_light_primary Colors_light_wellness
    Colors_light_appointment colors_primary parseAndFormat
    sel eventsList appointmentsList
  = updateMarkedDates Colors_light_primary Colors_light_wellness
      Colors_light_appointment colors_primary parseAndFormat
      sel (filter (fun event => status event <> cancelled) eventsList)
      appointmentsList.
Proof.
  unfold updateMarkedDates.
  assert (forall marked,
            fold_left
              (markEvent Colors_light_primary Colors_light_wellness
                 parseAndFormat) eventsList marked
            = fold_left
                (markEvent Colors_light_primary Colors_light_wellness
                   parseAndFormat)
                (filter (fun event => status event <> cancelled) eventsList)
                marked) as ->; [| reflexivity].
  induction eventsList as [| e es IH]; intros marked; [reflexivity |].
  rewrite filter_cons.
  destruct (decide (status e <> cancelled)) as [Hs | Hs]; simpl.
  - apply IH.
  - assert (markEvent Colors_light_primary Colors_light_wellness
              parseAndFormat marked e = marked) as ->
      by (unfold markEvent; by rewrite decide_False).
    apply IH.
Qed.

(** The colour of an event's dot: the event's own colour when it has
    one that is not empty, and never empty as long as the primary
    colour of the palette is not. *)
Theorem event_dot_colour_not_empty (event : Event) :
  Colors_light_primary <> EmptyString ->
  dotColor (eventDot Colors_light_primary Colors_light_wellness event)
  <> EmptyString
  /\ (forall c, color event = Some c -> c <> EmptyString ->
        dotColor (eventDot Colors_light_primary Colors_light_wellness event)
        = c).
Proof.
  intros Hprimary. unfold eventDot, eventColor, JSString.or. simpl.
  split.
  - destruct (color event) as [[| c0 c] |]; simpl;
      try discriminate;
      destruct (category event); simpl; try discriminate;
      try assumption;
      destruct Colors_light_primary, Colors_light_wellness;
      simpl; try discriminate; try done.
  - intros c Hc Hne. rewrite Hc. destruct c; [done | reflexivity].
Qed.

End MoreMarkers.

Lemma only_selected_date_highlighted_witness :
  "2024-06-01" <> "2024-06-02"
  /\ (updateMarkedDates "#0A84FF" "#34C759" "#5856D6" "#0A84FF"
        (fun _ => None) "2024-06-02" [juneEvent] [juneAppointment]
      !! "2024-06-01" = None
      <-> dotsOn (updateMarkedDates "#0A84FF" "#34C759" "#5856D6" "#0A84FF"
                    (fun _ => None) "2024-06-02" [juneEvent]
                    [juneAppointment]) "2024-06-01" = [])
  /\ forall m,
       updateMarkedDates "#0A84FF" "#34C759" "#5856D6" "#0A84FF"
         (fun _ => None) "2024-06-02" [juneEvent] [juneAppointment]
       !! "2024-06-01" = Some m ->
       selected m = None /\ selectedColor m = None
       /\ selectedTextColor m = None.
Proof.
  split; [discriminate |].
  apply (only_selected_date_highlighted "#0A84FF" "#34C759" "#5856D6"
           "#0A84FF" (fun _ => None) "2024-06-02" "2024-06-01"
           [juneEvent] [juneAppointment]).
  discriminate.
Defined.

Lemma event_dot_colour_not_empty_witness :
  dotColor (eventDot "#0A84FF" "" juneEvent) <> EmptyString
  /\ (forall c, color juneEvent = Some c -> c <> EmptyString ->
        dotColor (eventDot "#0A84FF" "" juneEvent) = c).
Proof.
  apply (event_dot_colour_not_empty "#0A84FF" "" juneEvent). discriminate.
Defined.

(** ** From the scheduler's slots to the saved appointment *)

Lemma sameDay_not_dayBefore (a b : Date) :
  JSDate.sameDay a b = true -> JSDate.dayBefore a b = false.
Proof.
  intros H. destruct (JSDate.dayBefore a b) eqn:Hday; [| reflexivity].
  apply dayBefore_not_sameDay in Hday. congruence.
Qed.

(** A time in a later hour of the clock's day is not before the
    clock. *)
Lemma later_hour_not_before (now d : Date) (hours minutes : nat) :
  isToday now d = true ->
  JSDate.getMinutes now < 60 -> JSDate.getSeconds now < 60 ->
  JSDate.getMilliseconds now < 1000 ->
  JSDate.getHours now < hours ->
  JSDate.isBefore (JSDate.setHoursMinutes d hours minutes) now = false.
Proof.
  intros Htoday Hm Hs Hms Hh. unfold JSDate.isBefore.
  change (JSDate.dayBefore (JSDate.setHoursMinutes d hours minutes) now)
    with (JSDate.dayBefore d now).
  rewrite (sameDay_not_dayBefore d now Htoday). simpl.
  apply andb_false_intro2. apply N.ltb_ge.
  unfold JSDate.msOfDay. simpl. lia.
Qed.

(** On the clock's own day, before 9 o'clock or from the half hour
    on, every slot the scheduler offers passes the time rule of its
    validator once it is selected: none is rejected as past. *)
Theorem offered_slot_passes_time_rule (now d slot : Date)
    (f : AppointmentScheduler.Form) :
  AppointmentScheduler.date f = ValidDate d ->
  isToday now d = true ->
  JSDate.getMinutes now < 60 -> JSDate.getSeconds now < 60 ->
  JSDate.getMilliseconds now < 1000 ->
  JSDate.getHours now < 9 \/ 30 <= JSDate.getMinutes now ->
  In slot (AppointmentScheduler.generateTimeSlots now d) ->
  AppointmentScheduler.validateInputs now
    (AppointmentScheduler.handleTimeSlotSelect slot f) !! "time" = None.
Proof.
  intros Hd Htoday Hm Hs Hms Hclock Hslot.
  rewrite validateInputs_time.
  unfold AppointmentScheduler.timeError,
    AppointmentScheduler.handleTimeSlotSelect. simpl.
  rewrite Hd, Htoday. simpl.
  rewrite later_hour_not_before; try assumption; [reflexivity |].
  unfold AppointmentScheduler.generateTimeSlots in Hslot.
  apply slotLoop_elem in Hslot as [Hh _].
  unfold slotStartHour in Hh. rewrite Htoday in Hh.
  destruct (Nat.leb_spec 9 (JSDate.getHours now)); [| lia].
  destruct (Nat.leb_spec 30 (JSDate.getMinutes now)); lia.
Qed.

Lemma offered_slot_passes_time_rule_witness :
  AppointmentScheduler.validateInputs (JSDate.mk 2024 5 3 10 45 0 0)
    (AppointmentScheduler.handleTimeSlotSelect
       (JSDate.mk 2024 5 3 12 0 0 0)
       (AppointmentScheduler.mkForm "Grey" "Cardiology" "Clinic"
          (ValidDate (JSDate.mk 2024 5 3 12 0 0 0)) NoDate None false
          false None NoDate 30)) !! "time" = None.
Proof.
  apply (offered_slot_passes_time_rule
           (JSDate.mk 2024 5 3 10 45 0 0) (JSDate.mk 2024 5 3 12 0 0 0)
           (JSDate.mk 2024 5 3 12 0 0 0));
    [reflexivity | reflexivity | simpl; lia | simpl; lia | simpl; lia
    | right; simpl; lia | left; reflexivity].
Defined.

Lemma handleSchedule_signed_out (Colors_light_primary : string)
    (now : Date) (f : AppointmentScheduler.Form) (appointmentColor : string) :
  AppointmentScheduler.handleSchedule Colors_light_primary false None now f
    appointmentColor = None.
Proof.
  unfold AppointmentScheduler.handleSchedule. cbv iota zeta.
  destruct (0 <? size (AppointmentScheduler.validateInputs now f));
    [reflexivity |].
  by destruct (AppointmentScheduler.date f), (AppointmentScheduler.time f).
Qed.

(** While a submission is under way, and when nobody is signed in,
    nothing is given to [addAppointment] or [saveAppointment].
    Otherwise, for a user with a [uid], an appointment form that
    validates is saved, and what is saved is
    what the calendar expects: the status is upcoming, the date is the
    selected day as ["YYYY-MM-DD"], the time is ["HH:mm"] and denotes
    the selected time of day, the duration is the one entered, from 15
    to 240 minutes (the default of 30 is never used), the three names
    are not empty, and the appointment repeats exactly when it has a
    recurrence pattern, with an end only when it repeats. *)
Theorem scheduled_appointment_well_formed (Colors_light_primary : string)
    (user : User) (now : Date) (f : AppointmentScheduler.Form)
    (appointmentColor : string) :
  uid user <> EmptyString ->
  AppointmentScheduler.validateInputs now f = ∅ ->
  (forall t, AppointmentScheduler.time f = ValidDate t ->
             JSDate.getHours t < 24 /\ JSDate.getMinutes t < 60) ->
  (forall d, AppointmentScheduler.date f = ValidDate d ->
             1000 <= JSDate.getFullYear d < 100 * 100
             /\ JSDate.getMonth d <= 11 /\ 1 <= JSDate.getDate d <= 31) ->
  AppointmentScheduler.handleSchedule Colors_light_primary true
    (Some user) now f appointmentColor = None
  /\ AppointmentScheduler.handleSchedule Colors_light_primary false
       None now f appointmentColor = None
  /\ exists a d t,
    AppointmentScheduler.handleSchedule Colors_light_primary false
      (Some user) now f appointmentColor = Some a
    /\ AppointmentScheduler.date f = ValidDate d
    /\ AppointmentScheduler.time f = ValidDate t
    /\ AppointmentScheduler.dataStatus a = "upcoming"
    /\ AppointmentScheduler.dataDate a
       = canonicalDate (JSDate.getFullYear d) (JSDate.getMonth d + 1)
                       (JSDate.getDate d)
    /\ matchesDatePattern (AppointmentScheduler.dataDate a) = true
    /\ parseTime (AppointmentScheduler.dataTime a)
       = Some (JSDate.minuteOfDay t)
    /\ AppointmentScheduler.dataDuration a = AppointmentScheduler.duration f
    /\ (15 <= AppointmentScheduler.dataDuration a <= 240)%Z
    /\ AppointmentScheduler.dataDoctorName a <> EmptyString
    /\ AppointmentScheduler.dataSpecialty a <> EmptyString
    /\ AppointmentScheduler.dataLocation a <> EmptyString
    /\ (AppointmentScheduler.dataIsRecurring a = true
        <-> is_Some (AppointmentScheduler.dataRecurrencePattern a))
    /\ (is_Some (AppointmentScheduler.dataRecurrenceEnd a) ->
        AppointmentScheduler.dataIsRecurring a = true).
Proof.
  intros Huid Hvalid Hclock Hcalendar.
  split; [reflexivity |].
  split; [apply handleSchedule_signed_out |].
  unfold AppointmentScheduler.handleSchedule. rewrite Hvalid.
  change (0 <? size (∅ : gmap string string)) with false. cbv iota.
  assert (JSString.truthy (Some (uid user)) = true) as ->
    by (by destruct (uid user)).
  apply validateInputs_empty in Hvalid
    as (Hname & Hspec & Hloc & Hdate & Htime & Hrec & Hdur).
  apply appointment_dateError_None in Hdate as (d & Hd & _).
  destruct (proj1 (appointment_timeError_None now d f Hd) Htime)
    as (t & Ht & _).
  pose proof (proj1 (appointment_recurrenceError_None d f Hd) Hrec) as Hr.
  apply durationError_None in Hdur.
  destruct (Hclock t Ht) as [Hh Hm].
  destruct (Hcalendar d Hd) as (Hy & Hmonth & Hday).
  rewrite Hd, Ht.
  eexists. exists d, t. split; [reflexivity |]. simpl.
  unfold AppointmentScheduler.formattedDate.
  rewrite manualDateFormat_canonical by lia.
  replace (AppointmentScheduler.duration f =? 0)%Z with false
    by (symmetry; apply Z.eqb_neq; lia).
  repeat split; try done; try lia; try (by apply trim_not_blank).
  - apply canonicalDate_shape; lia.
  - by apply parseTime_formatHHmm.
  - intros Hrecurring. rewrite Hrecurring. rewrite Hrecurring in Hr.
    destruct (Hr eq_refl) as (Hpattern & _).
    by rewrite (bool_decide_eq_true_2 _ Hpattern).
  - intros [pattern H].
    by destruct (AppointmentScheduler.isRecurring f).
  - intros [e H]. by destruct (AppointmentScheduler.isRecurring f).
Qed.

Lemma scheduled_appointment_well_formed_witness :
  AppointmentScheduler.handleSchedule "#0A84FF" true (Some juneUser)
    juneNoon checkupForm "#FF0000" = None
  /\ AppointmentScheduler.handleSchedule "#0A84FF" false None
       juneNoon checkupForm "#FF0000" = None
  /\ exists a d t,
    AppointmentScheduler.handleSchedule "#0A84FF" false (Some juneUser)
      juneNoon checkupForm "#FF0000" = Some a
    /\ AppointmentScheduler.date checkupForm = ValidDate d
    /\ AppointmentScheduler.time checkupForm = ValidDate t
    /\ AppointmentScheduler.dataStatus a = "upcoming"
    /\ AppointmentScheduler.dataDate a
       = canonicalDate (JSDate.getFullYear d) (JSDate.getMonth d + 1)
                       (JSDate.getDate d)
    /\ matchesDatePattern (AppointmentScheduler.dataDate a) = true
    /\ parseTime (AppointmentScheduler.dataTime a)
       = Some (JSDate.minuteOfDay t)
    /\ AppointmentScheduler.dataDuration a
       = AppointmentScheduler.duration checkupForm
    /\ (15 <= AppointmentScheduler.dataDuration a <= 240)%Z
    /\ AppointmentScheduler.dataDoctorName a <> EmptyString
    /\ AppointmentScheduler.dataSpecialty a <> EmptyString
    /\ AppointmentScheduler.dataLocation a <> EmptyString
    /\ (AppointmentScheduler.dataIsRecurring a = true
        <-> is_Some (AppointmentScheduler.dataRecurrencePattern a))
    /\ (is_Some (AppointmentScheduler.dataRecurrenceEnd a) ->
        AppointmentScheduler.dataIsRecurring a = true).
Proof.
  apply (scheduled_appointment_well_formed "#0A84FF" juneUser juneNoon
                                           checkupForm "#FF0000").
  - discriminate.
  - vm_compute. reflexivity.
  - intros t [= <-]. simpl. lia.
  - intros d [= <-]. simpl. lia.
Defined.

(** ** The selection after a snapshot *)

(** C10, evaluated: the two snapshot callbacks highlight the date that
    was selected when the listeners were registered, not the date
    selected now.  Whatever the lists, the entry a snapshot leaves at
    any other date, the currently selected one included, carries no
    selection.  With the listeners registered on 3 June 2024 and
    10 June selected since, a snapshot of the appointments leaves at
    10 June the dot of its appointment and no selection, and marks
    3 June as selected; a snapshot of no event leaves no entry at all
    at 10 June. *)
Theorem snapshot_highlights_subscribed_date :
  (forall (Colors_light_primary Colors_light_wellness : string)
          (Colors_light_appointment colors_primary : string)
          (parseAndFormat : string -> option string)
          (sub : Subscription) (eventsList : list Event)
          (appointmentsList : list Appointment)
          (current : string) (m : Marking),
     current <> subscribedSelected sub ->
     onEventsSnapshot Colors_light_primary Colors_light_wellness
       Colors_light_appointment colors_primary parseAndFormat
       sub eventsList !! current = Some m
     \/ onAppointmentsSnapshot Colors_light_primary Colors_light_wellness
          Colors_light_appointment colors_primary parseAndFormat
          sub appointmentsList !! current = Some m ->
     selected m = None)
  /\ onAppointmentsSnapshot "#0A84FF" "#34C759" "#5856D6" "#0A84FF"
       (fun _ => None) (mkSubscription "2024-06-03" [] [])
       [tenthAppointment] !! "2024-06-10"
     = Some (mkMarking [mkDot (Some "a2") "#5856D6"] None None None)
  /\ onAppointmentsSnapshot "#0A84FF" "#34C759" "#5856D6" "#0A84FF"
       (fun _ => None) (mkSubscription "2024-06-03" [] [])
       [tenthAppointment] !! "2024-06-03"
     = Some (mkMarking [] (Some true) (Some "#0A84FF80") (Some "#ffffff"))
  /\ onEventsSnapshot "#0A84FF" "#34C759" "#5856D6" "#0A84FF"
       (fun _ => None) (mkSubscription "2024-06-03" [] [])
       [] !! "2024-06-10"
     = None.
Proof.
  split; [| repeat split; vm_compute; reflexivity].
  intros P W A T parseAndFormat sub eventsList appointmentsList current m
         Hcurrent Hm.
  assert (forall es apts,
            updateMarkedDates P W A T parseAndFormat
              (subscribedSelected sub) es apts !! current = Some m ->
            selected m = None) as Hstale.
  { intros es apts. unfold updateMarkedDates.
    pose proof (marking_loops_plain P W A parseAndFormat es apts) as Hplain.
    set (marked := fold_left _ apts _) in *.
    destruct (marked !! subscribedSelected sub);
      rewrite lookup_insert_ne by done; intros Hlookup;
      by destruct (Hplain _ _ Hlookup) as (_ & Hsel & _). }
  destruct Hm as [Hm | Hm]; by apply Hstale in Hm.
Qed.
